(** * WordSuggest: the built-in suggestion lookup and the selection handler

    A shallow embedding of [manual_test_simulation.py]:
    [MockWordSuggestionService.get_suggestions] and
    [simulate_openai_response], the window and monitor mocks, and
    [MockAppDelegate.text_selection_detected]; of [verify_project.py]; and
    of the result table, the structure test and the report thresholds of
    [test_runner.py].

    Modelling conventions.
    - A Python [str] is a [string]; its characters are the code points
      U+0000 .. U+00FF (Latin-1), on which [str.strip] and [str.lower] are
      written out as CPython computes them.
    - A Python [float] is a binary64 [float]; the literals 0.8, 0.6 and 0.4
      are only stored and compared, never computed on.
    - The dict [built_in_synonyms] is an association list in insertion
      order, which is the order [dict.items()] iterates in. *)

From Stdlib Require Import Bool Arith Lia List Sorted NArith ZArith.
From Stdlib Require Import Ascii String.
From Stdlib Require Import Floats.
Import ListNotations.

#[local] Set Warnings "-inexact-float".

Open Scope string_scope.
Open Scope list_scope.

(** ** Python string primitives *)

Module PyStr.

(** [c.isspace()] on U+0000 .. U+00FF: TAB..CR, FS..US, SPACE, NEL, NBSP. *)
Definition is_space (c : ascii) : bool :=
  let n := N_of_ascii c in
  ((9 <=? n) && (n <=? 13) || (28 <=? n) && (n <=? 32)
   || (n =? 133) || (n =? 160))%N.

(** [c.lower()] on U+0000 .. U+00FF: A..Z and the accented capitals
    U+00C0 .. U+00DE (the multiplication sign U+00D7 apart) move up by 32. *)
Definition lower_char (c : ascii) : ascii :=
  let n := N_of_ascii c in
  if ((65 <=? n) && (n <=? 90)
      || (192 <=? n) && (n <=? 222) && negb (n =? 215))%N
  then ascii_of_N (n + 32) else c.

(** [s.lower()] *)
Fixpoint lower (s : string) : string :=
  match s with
  | EmptyString => EmptyString
  | String c s' => String (lower_char c) (lower s')
  end.

(** [s.lstrip()] *)
Fixpoint lstrip (s : string) : string :=
  match s with
  | EmptyString => EmptyString
  | String c s' => if is_space c then lstrip s' else s
  end.

(** [s.rstrip()] *)
Fixpoint rstrip (s : string) : string :=
  match s with
  | EmptyString => EmptyString
  | String c s' =>
      match rstrip s' with
      | EmptyString => if is_space c then EmptyString else String c EmptyString
      | r => String c r
      end
  end.

(** [s.strip()] *)
Definition strip (s : string) : string := rstrip (lstrip s).

(** [needle in hay] on strings: [needle] occurs at some offset of [hay]. *)
Fixpoint str_in (needle hay : string) : bool :=
  String.prefix needle hay
  || match hay with
     | EmptyString => false
     | String _ hay' => str_in needle hay'
     end.

(** [not s] : the truth value of a string is its non-emptiness. *)
Definition is_empty (s : string) : bool :=
  match s with EmptyString => true | _ => false end.

End PyStr.
Import PyStr.

(** ** Data *)

(** [class WordSuggestion]; [type] is the string the source stores. *)
Record WordSuggestion : Type := mkWordSuggestion {
  word : string;
  type : string;
  confidence : float
}.

Definition Dict : Type := list (string * list string).

(** [self.built_in_synonyms], in insertion order. *)
Definition built_in_synonyms : Dict :=
  [ ("good", ["excellent"; "great"; "wonderful"; "fantastic"; "superb"]);
    ("bad", ["terrible"; "awful"; "horrible"; "poor"; "dreadful"]);
    ("big", ["large"; "huge"; "enormous"; "massive"; "gigantic"]);
    ("small", ["tiny"; "little"; "minute"; "petite"; "compact"]);
    ("fast", ["quick"; "rapid"; "swift"; "speedy"; "hasty"]);
    ("slow", ["gradual"; "leisurely"; "sluggish"; "unhurried"; "deliberate"]);
    ("happy", ["joyful"; "cheerful"; "delighted"; "elated"; "content"]);
    ("sad", ["sorrowful"; "melancholy"; "dejected"; "gloomy"; "mournful"]);
    ("beautiful", ["gorgeous"; "stunning"; "attractive"; "lovely"; "magnificent"]);
    ("ugly", ["hideous"; "unsightly"; "repulsive"; "grotesque"; "unattractive"]);
    ("smart", ["intelligent"; "brilliant"; "clever"; "wise"; "sharp"]);
    ("stupid", ["foolish"; "ignorant"; "dumb"; "senseless"; "mindless"]);
    ("important", ["significant"; "crucial"; "vital"; "essential"; "critical"]);
    ("easy", ["simple"; "effortless"; "straightforward"; "uncomplicated"; "basic"]);
    ("difficult", ["challenging"; "tough"; "demanding"; "complex"; "arduous"]);
    ("new", ["fresh"; "recent"; "modern"; "novel"; "contemporary"]);
    ("old", ["ancient"; "vintage"; "aged"; "elderly"; "antique"]);
    ("hot", ["warm"; "scorching"; "blazing"; "sweltering"; "boiling"]);
    ("cold", ["frigid"; "freezing"; "chilly"; "icy"; "arctic"]);
    ("bright", ["luminous"; "radiant"; "brilliant"; "vivid"; "gleaming"]) ].

(** [general_alternatives], local to [get_suggestions]. *)
Definition general_alternatives : list string :=
  ["alternative"; "option"; "choice"; "variant"; "substitute"].

(** ** MockWordSuggestionService.get_suggestions *)

(** [d[k]] guarded by [k in d]. *)
Fixpoint dict_get (d : Dict) (k : string) : option (list string) :=
  match d with
  | [] => None
  | (k', v) :: d' => if String.eqb k k' then Some v else dict_get d' k
  end.

(** The exact-match block: [suggestions] after lines 52-58. *)
Definition exact_match (d : Dict) (clean_text : string) : list WordSuggestion :=
  match dict_get d clean_text with
  | Some synonyms =>
      map (fun w => mkWordSuggestion w "synonym" 0.8%float) (firstn 5 synonyms)
  | None => []
  end.

(** The test of line 63. *)
Definition key_matches (clean_text key : string) : bool :=
  str_in key clean_text || str_in clean_text key.

(** The loop of lines 62-68 over [d.items()]: the first key that passes
    the test assigns [suggestions] and breaks; with no such key
    [suggestions] stays as it was, that is empty. *)
Fixpoint partial_match (items : Dict) (clean_text : string)
  : list WordSuggestion :=
  match items with
  | [] => []
  | (key, synonyms) :: rest =>
      if key_matches clean_text key
      then map (fun w => mkWordSuggestion w "related" 0.6%float)
               (firstn 3 synonyms)
      else partial_match rest clean_text
  end.

(** Lines 70-74.  The slice bound [5 - len(suggestions)] is at least 3
    under the guard, so truncated subtraction agrees with Python's. *)
Definition add_alternatives (suggestions : list WordSuggestion)
  : list WordSuggestion :=
  if (List.length suggestions <? 3)%nat
  then suggestions
       ++ map (fun alt => mkWordSuggestion alt "alternative" 0.4%float)
              (firstn (5 - List.length suggestions) general_alternatives)
  else suggestions.

Definition get_suggestions_in (d : Dict) (text : string)
  : list WordSuggestion :=
  let clean_text := lower (strip text) in
  let suggestions := exact_match d clean_text in
  let suggestions :=
    match suggestions with
    | [] => partial_match d clean_text
    | _ => suggestions
    end in
  add_alternatives suggestions.

Definition get_suggestions (text : string) : list WordSuggestion :=
  get_suggestions_in built_in_synonyms text.

(** Constructors of the three kinds of suggestion the service builds. *)
Definition synonym (w : string) : WordSuggestion :=
  mkWordSuggestion w "synonym" 0.8%float.
Definition related (w : string) : WordSuggestion :=
  mkWordSuggestion w "related" 0.6%float.
Definition alternative (w : string) : WordSuggestion :=
  mkWordSuggestion w "alternative" 0.4%float.

(** ** Reading aids for the lookup *)

(** The entry the loop of lines 62-68 stops at, if any. *)
Definition first_match (items : Dict) (clean_text : string)
  : option (string * list string) :=
  find (fun e => key_matches clean_text (fst e)) items.

(** Which block of [get_suggestions] produces the result. *)
Inductive Branch : Type := ExactMatch | PartialMatch | NoMatch.

Definition branch_of (text : string) : Branch :=
  let clean_text := lower (strip text) in
  match dict_get built_in_synonyms clean_text with
  | Some _ => ExactMatch
  | None =>
      match first_match built_in_synonyms clean_text with
      | Some _ => PartialMatch
      | None => NoMatch
      end
  end.

(** The word of a suggestion as deduplication sees it. *)
Definition normalized_word (s : WordSuggestion) : string := lower (word s).

(** [y <= x] on confidences. *)
Definition conf_ge (x y : float) : Prop := PrimFloat.leb y x = true.

Fixpoint nodupb (l : list string) : bool :=
  match l with
  | [] => true
  | x :: l' => negb (existsb (String.eqb x) l') && nodupb l'
  end.

Fixpoint non_increasingb (l : list float) : bool :=
  match l with
  | [] => true
  | x :: l' => forallb (fun y => PrimFloat.leb y x) l' && non_increasingb l'
  end.

(** The invariants of a suggestion set, as a check. *)
Definition well_formedb (r : list WordSuggestion) : bool :=
  nodupb (map normalized_word r)
  && non_increasingb (map confidence r)
  && (List.length r <=? 5)%nat.

(** ASCII punctuation, Python's [string.punctuation]. *)
Definition is_punctuation (c : ascii) : bool :=
  let n := N_of_ascii c in
  ((33 <=? n) && (n <=? 47) || (58 <=? n) && (n <=? 64)
   || (91 <=? n) && (n <=? 96) || (123 <=? n) && (n <=? 126))%N.

(** The reading under which padding stops at three entries. *)
Definition pads_to_three (text : string) : Prop :=
  get_suggestions text
  = [ mkWordSuggestion "alternative" "alternative" 0.4%float;
      mkWordSuggestion "option" "alternative" 0.4%float;
      mkWordSuggestion "choice" "alternative" 0.4%float ].

(** The reading under which a trailing punctuation character is stripped
    before matching. *)
Definition strips_trailing_punctuation (w : string) (p : ascii) : Prop :=
  branch_of (w ++ String p EmptyString) = ExactMatch
  /\ get_suggestions (w ++ String p EmptyString) = get_suggestions w.

(** ** The window, the monitor and the application delegate *)

Record MockSuggestionWindow : Type := mkWindow {
  is_visible : bool;
  current_suggestions : list WordSuggestion;
  position : Z * Z
}.

Record MockTextMonitor : Type := mkMonitor {
  is_monitoring : bool
}.

(** [MockAppDelegate]: the monitor and the window are its mutable parts;
    the suggestion service has no state, and the monitor's [delegate] is
    the application itself from [__init__] on. *)
Record MockAppDelegate : Type := mkApp {
  text_monitor : MockTextMonitor;
  suggestion_window : MockSuggestionWindow
}.

(** [MockAppDelegate.__init__] *)
Definition new_app : MockAppDelegate :=
  mkApp (mkMonitor false) (mkWindow false [] (0, 0)%Z).

(** The lines written to standard output, by what they report. *)
Inductive Message : Type :=
| EmptySelectionIgnored
| ProcessingText (clean_text : string)
| FoundSuggestions (n : nat)
| NoSuggestionsFound
| WindowContents (suggestions : list WordSuggestion) (pos : Z * Z)
| NoSuggestionsToDisplay
| WindowHidden
| MonitoringStarted
| MonitoringStopped
| NotMonitoring
| TextSelected (text : string) (pos : Z * Z)
| HotkeyPressed
| ApplicationStarted
| StatusBarIcon
| ApplicationStopped.

(** What a handler does besides updating the state. *)
Inductive Event : Type :=
| Print (m : Message)
| CallGetSuggestions (text : string)
| CallShowSuggestions (suggestions : list WordSuggestion) (pos : Z * Z)
| CallHide.

(** Handlers: a state transformer over the application that also logs
    its events, oldest first. *)
Definition M (A : Type) : Type :=
  MockAppDelegate -> A * MockAppDelegate * list Event.

Definition ret {A : Type} (a : A) : M A := fun app => (a, app, []).

Definition bind {A B : Type} (m : M A) (k : A -> M B) : M B :=
  fun app =>
    let '(a, app1, log1) := m app in
    let '(b, app2, log2) := k a app1 in
    (b, app2, log1 ++ log2).

Definition emit (e : Event) : M unit := fun app => (tt, app, [e]).

Definition get_app : M MockAppDelegate := fun app => (app, app, []).

Definition set_window (w : MockSuggestionWindow) : M unit :=
  fun app => (tt, mkApp (text_monitor app) w, []).

Definition set_monitor (m : MockTextMonitor) : M unit :=
  fun app => (tt, mkApp m (suggestion_window app), []).

Declare Scope handler_scope.
Delimit Scope handler_scope with handler.
Notation "x <- m ;; k" := (bind m (fun x => k))
  (at level 61, m at next level, right associativity) : handler_scope.
Notation "m ;; k" := (bind m (fun _ => k))
  (at level 61, right associativity) : handler_scope.

Definition state_of {A : Type} (r : A * MockAppDelegate * list Event)
  : MockAppDelegate := snd (fst r).
Definition log_of {A : Type} (r : A * MockAppDelegate * list Event)
  : list Event := snd r.

Section Handlers.
Local Open Scope handler_scope.

(** [MockSuggestionWindow.show_suggestions] *)
Definition show_suggestions (suggestions : list WordSuggestion)
           (pos : Z * Z) : M unit :=
  emit (CallShowSuggestions suggestions pos) ;;
  let visible := (0 <? List.length suggestions)%nat in
  set_window (mkWindow visible suggestions pos) ;;
  if visible then emit (Print (WindowContents suggestions pos))
  else emit (Print NoSuggestionsToDisplay).

(** [MockSuggestionWindow.hide] *)
Definition hide : M unit :=
  emit CallHide ;;
  app <- get_app ;;
  set_window (mkWindow false [] (position (suggestion_window app))) ;;
  emit (Print WindowHidden).

(** [self.suggestion_service.get_suggestions(...)], with the call logged. *)
Definition call_get_suggestions (text : string) : M (list WordSuggestion) :=
  emit (CallGetSuggestions text) ;;
  ret (get_suggestions text).

(** [MockAppDelegate.text_selection_detected] *)
Definition text_selection_detected (text : string) (pos : Z * Z) : M unit :=
  let clean_text := strip text in
  if is_empty clean_text then emit (Print EmptySelectionIgnored)
  else
    emit (Print (ProcessingText clean_text)) ;;
    suggestions <- call_get_suggestions clean_text ;;
    match suggestions with
    | _ :: _ =>
        emit (Print (FoundSuggestions (List.length suggestions))) ;;
        show_suggestions suggestions pos
    | [] => emit (Print NoSuggestionsFound)
    end.

(** [MockTextMonitor.start_monitoring] *)
Definition start_monitoring : M unit :=
  set_monitor (mkMonitor true) ;;
  emit (Print MonitoringStarted).

(** [MockTextMonitor.stop_monitoring] *)
Definition stop_monitoring : M unit :=
  set_monitor (mkMonitor false) ;;
  emit (Print MonitoringStopped).

(** [MockTextMonitor.simulate_text_selection] *)
Definition simulate_text_selection (text : string) (pos : Z * Z) : M unit :=
  app <- get_app ;;
  if negb (is_monitoring (text_monitor app)) then emit (Print NotMonitoring)
  else
    emit (Print (TextSelected text pos)) ;;
    emit (Print HotkeyPressed) ;;
    text_selection_detected text pos.

(** [MockAppDelegate.start_application] *)
Definition start_application : M unit :=
  emit (Print ApplicationStarted) ;;
  emit (Print StatusBarIcon) ;;
  start_monitoring.

(** [MockAppDelegate.stop_application] *)
Definition stop_application : M unit :=
  stop_monitoring ;;
  hide ;;
  emit (Print ApplicationStopped).

End Handlers.

(** Whether a log records a lookup or a call of the window. *)
Definition is_lookup (e : Event) : bool :=
  match e with CallGetSuggestions _ => true | _ => false end.

Definition is_window_call (e : Event) : bool :=
  match e with
  | CallShowSuggestions _ _ | CallHide => true
  | _ => false
  end.

(** The reading under which the lookup itself answers a blank input with
    the empty list. *)
Definition blank_input_returns_empty (text : string) : Prop :=
  strip text = EmptyString -> get_suggestions text = [].

(** The reading under which an empty selection hides the overlay. *)
Definition empty_selection_hides (app : MockAppDelegate) (text : string)
           (pos : Z * Z) : Prop :=
  strip text = EmptyString ->
  let r := text_selection_detected text pos app in
  is_visible (suggestion_window (state_of r)) = false
  /\ existsb is_window_call (log_of r) = true.

(** The application with monitoring on and the window showing the
    answer to an earlier selection of "good". *)
Definition app_showing_good : MockAppDelegate :=
  state_of (bind start_application
                 (fun _ => simulate_text_selection "good" (150, 300)%Z)
                 new_app).

(** ** Reading aids for the general lexicon *)

(** A string all of whose characters are white space. *)
Fixpoint all_space (s : string) : bool :=
  match s with
  | EmptyString => true
  | String c s' => is_space c && all_space s'
  end.

(** Every suggestion of [r] carries the type [ty] and the confidence [c]. *)
Definition same_kind (ty : string) (c : float) (r : list WordSuggestion)
  : Prop :=
  Forall (fun s => type s = ty /\ confidence s = c) r.

(** A result that holds suggestions of one kind only. *)
Definition one_kind (r : list WordSuggestion) : Prop :=
  same_kind "synonym" 0.8%float r
  \/ same_kind "related" 0.6%float r
  \/ same_kind "alternative" 0.4%float r.

(** A string none of whose characters is white space. *)
Fixpoint no_space (s : string) : bool :=
  match s with
  | EmptyString => true
  | String c s' => negb (is_space c) && no_space s'
  end.

(** ** MockWordSuggestionService.simulate_openai_response *)

(** One item of a mocked reply: its "word", "type" and "confidence". *)
Definition ResponseItem : Type := string * string * float.

(** [mock_responses], local to [simulate_openai_response]. *)
Definition mock_responses : list (string * list ResponseItem) :=
  [ ("good",
     [ ("excellent", "synonym", 0.95%float);
       ("outstanding", "synonym", 0.90%float);
       ("superb", "synonym", 0.85%float);
       ("positive", "alternative", 0.80%float);
       ("beneficial", "alternative", 0.75%float);
       ("quality", "related", 0.70%float);
       ("virtue", "related", 0.65%float);
       ("stellar", "creative", 0.60%float) ]);
    ("fast",
     [ ("quick", "synonym", 0.95%float);
       ("rapid", "synonym", 0.90%float);
       ("swift", "synonym", 0.85%float);
       ("speedy", "alternative", 0.80%float);
       ("hasty", "alternative", 0.75%float);
       ("velocity", "related", 0.70%float);
       ("acceleration", "related", 0.65%float);
       ("lightning", "creative", 0.60%float) ]) ].

Fixpoint response_get (d : list (string * list ResponseItem)) (k : string)
  : option (list ResponseItem) :=
  match d with
  | [] => None
  | (k', v) :: d' => if String.eqb k k' then Some v else response_get d' k
  end.

(** Lines 78-114.  The call of [time.sleep] delays the reply and touches
    nothing else; the reply is [None] or the list built from the items.
    The key is [text.lower()]: the text is not trimmed here. *)
Definition simulate_openai_response (text : string)
  : option (list WordSuggestion) :=
  match response_get mock_responses (lower text) with
  | Some response_data =>
      Some (map (fun item : ResponseItem =>
                   let '(w, ty, c) := item in mkWordSuggestion w ty c)
                response_data)
  | None => None
  end.

(** ** Rendering helpers of MockSuggestionWindow *)

(** The five pictographs [_get_type_indicator] can return: the arrows of
    a synonym, the crossed arrows of an alternative, the link of a related
    word, the sparkles of a creative one, and the question mark that is
    the default. *)
Inductive Glyph : Type :=
| ArrowsGlyph | ShuffleGlyph | LinkGlyph | SparklesGlyph | QuestionGlyph.

(** [indicators], local to [_get_type_indicator]. *)
Definition indicators : list (string * Glyph) :=
  [ ("synonym", ArrowsGlyph); ("alternative", ShuffleGlyph);
    ("related", LinkGlyph); ("creative", SparklesGlyph) ].

(** [indicators.get(suggestion_type, default)] *)
Fixpoint glyph_get (d : list (string * Glyph)) (k : string) (default : Glyph)
  : Glyph :=
  match d with
  | [] => default
  | (k', g) :: d' => if String.eqb k k' then g else glyph_get d' k default
  end.

Definition _get_type_indicator (suggestion_type : string) : Glyph :=
  glyph_get indicators suggestion_type QuestionGlyph.

(** [int(x)] on a float: truncation towards zero; it raises on an
    infinity and on a NaN, which is [None] here. *)
Definition py_int (x : float) : option Z :=
  match Prim2SF x with
  | S754_zero _ => Some 0%Z
  | S754_finite s m e =>
      let magnitude := Z.shiftl (Zpos m) e in
      Some (if s then (- magnitude)%Z else magnitude)
  | S754_infinity _ | S754_nan => None
  end.

(** The two cells of a confidence bar: the full block and the light
    shade. *)
Inductive Cell : Type := FullBlock | LightShade.

(** [cell * n] for an integer [n]: empty when [n] is negative. *)
Definition cells (c : Cell) (n : Z) : list Cell := repeat c (Z.to_nat n).

(** Lines 154-156; the integer 5 is converted to 5.0 by the product. *)
Definition _get_confidence_bar (confidence : float) : option (list Cell) :=
  match py_int (confidence * 5)%float with
  | Some bars => Some (cells FullBlock bars ++ cells LightShade (5 - bars))
  | None => None
  end.

(** ** Sequences of calls *)

(** A selection as the monitor reports it: the text and its position. *)
Definition Selection : Type := (string * (Z * Z))%type.

(** The selections of a list, reported through the monitor one after
    the other. *)
Fixpoint simulate_selections (l : list Selection) : M unit :=
  match l with
  | [] => ret tt
  | (text, pos) :: l' =>
      bind (simulate_text_selection text pos)
           (fun _ => simulate_selections l')
  end.

(** A selection that is empty once trimmed. *)
Definition is_blank (sel : Selection) : bool := is_empty (strip (fst sel)).

(** The window that shows the answer to a selection. *)
Definition window_answering (sel : Selection) : MockSuggestionWindow :=
  mkWindow true (get_suggestions (fst sel)) (snd sel).

(** The window after the last selection of [l] that is not blank, or [w]
    when all are blank. *)
Definition window_after (l : list Selection) (w : MockSuggestionWindow)
  : MockSuggestionWindow :=
  fold_left (fun w sel => if is_blank sel then w else window_answering sel)
            l w.





(** ** Checks on a reply and on a rendered bar *)

Fixpoint decreasingb (l : list float) : bool :=
  match l with
  | [] => true
  | x :: l' => forallb (fun y => PrimFloat.ltb y x) l' && decreasingb l'
  end.

(** [y < x] on confidences. *)
Definition conf_gt (x y : float) : Prop := PrimFloat.ltb y x = true.

(** A confidence above 0 and at most 1. *)
Definition in_unit_range (c : float) : bool :=
  PrimFloat.ltb 0 c && PrimFloat.leb c 1.

Definition reply_checkb (r : list WordSuggestion) : bool :=
  (List.length r =? 8)%nat
  && nodupb (map normalized_word r)
  && decreasingb (map confidence r)
  && forallb (fun s => in_unit_range (confidence s)) r.

(** A bar of five cells of which the first [k] are full. *)
Definition bar_of (k : nat) : list Cell :=
  repeat FullBlock k ++ repeat LightShade (5 - k).

(** ** verify_project.py *)

Module VerifyProject.

(** What the script sees of the file system: [os.path.exists] and
    [os.listdir('.')]. *)
Record FileSystem : Type := mkFileSystem {
  path_exists : string -> bool;
  listdir : list string
}.

Definition required_files : list string :=
  [ "main.swift"; "AppDelegate.swift"; "TextMonitor.swift";
    "WordSuggestionService.swift"; "SuggestionWindow.swift"; "Info.plist";
    "WordSuggest.xcodeproj/project.pbxproj" ].

(** The lines the script prints, by what they report. *)
Inductive Line : Type :=
| Found (file : string)
| Missing (file : string)
| SummaryHeading
| PresentCount (present total : nat)
| MissingCount (missing : nat)
| MissingNames (files : list string)
| AllPresent
| SwiftCount (n : nat)
| SwiftName (file : string)
| Banner
| FinalSummary (structure_ok : bool) (swift_count : nat).

(** [s.endswith(suffix)] *)
Definition endswith (s suffix : string) : bool :=
  let n := String.length s in
  let m := String.length suffix in
  (m <=? n)%nat && String.eqb (String.substring (n - m) m s) suffix.

(** The loop of lines 21-27: [missing_files], [present_files] and the
    lines printed so far. *)
Definition check_files (fs : FileSystem) (files : list string)
           (acc : list string * list string * list Line)
  : list string * list string * list Line :=
  fold_left
    (fun acc file =>
       let '(missing_files, present_files, out) := acc in
       if path_exists fs file
       then (missing_files, present_files ++ [file], out ++ [Found file])
       else (missing_files ++ [file], present_files, out ++ [Missing file]))
    files acc.

(** [verify_project_structure]: the value returned and the lines printed. *)
Definition verify_project_structure (fs : FileSystem) : bool * list Line :=
  let '(missing_files, present_files, out) :=
    check_files fs required_files ([], [], []) in
  let out :=
    out ++ [ SummaryHeading;
             PresentCount (List.length present_files)
                          (List.length required_files);
             MissingCount (List.length missing_files) ] in
  match missing_files with
  | _ :: _ => (false, out ++ [MissingNames missing_files])
  | [] => (true, out ++ [AllPresent])
  end.

(** [count_swift_files] *)
Definition count_swift_files (fs : FileSystem) : nat * list Line :=
  let swift_files := filter (fun f => endswith f ".swift") (listdir fs) in
  (List.length swift_files,
   SwiftCount (List.length swift_files) :: map SwiftName swift_files).

(** The script body: the exit status and everything printed. *)
Definition main (fs : FileSystem) : Z * list Line :=
  let '(structure_ok, out1) := verify_project_structure fs in
  let '(swift_count, out2) := count_swift_files fs in
  let success := structure_ok && (0 <? swift_count)%nat in
  ((if success then 0 else 1)%Z,
   [Banner] ++ out1 ++ out2 ++ [FinalSummary structure_ok swift_count]).

(** A directory listing agrees with [os.path.exists] on the required
    files that lie in the directory itself. *)
Definition listing_agrees (fs : FileSystem) : Prop :=
  forall file,
    In file required_files -> str_in "/" file = false ->
    path_exists fs file = true -> In file (listdir fs).

End VerifyProject.

(** ** test_runner.py: the result table, the structure test, the report *)

Module TestRunner.

Inductive Verdict : Type := PASS | FAIL.

(** The messages of the structure test, by what they report. *)
Inductive Msg : Type :=
| FoundRequiredFile (file : string)
| MissingRequiredFile (file : string)
| FoundTestFile (file : string)
| MissingTestFile (file : string).

(** One entry of [self.test_results]. *)
Record CategoryResult : Type := mkCategoryResult {
  passed : nat;
  failed : nat;
  details : list (Verdict * Msg)
}.

Definition Results : Type := list (string * CategoryResult).

(** A printed line: the heading of the structure test or a message. *)
Inductive Output : Type :=
| StructureHeading
| Message (message : Msg).

(** [WordSuggestValidator]: the table and what was printed. *)
Record Validator : Type := mkValidator {
  test_results : Results;
  printed : list Output
}.

(** [__init__] *)
Definition new_validator : Validator :=
  mkValidator
    (map (fun category => (category, mkCategoryResult 0 0 []))
         ["structure"; "code_quality"; "logic"; "integration"; "security";
          "performance"])
    [].

(** [d[k] = f(d[k])]; [None] is the [KeyError] of a missing key. *)
Fixpoint update (d : Results) (k : string)
         (f : CategoryResult -> CategoryResult) : option Results :=
  match d with
  | [] => None
  | (k', v) :: d' =>
      if String.eqb k k' then Some ((k', f v) :: d')
      else option_map (cons (k', v)) (update d' k f)
  end.

Fixpoint lookup (d : Results) (k : string) : option CategoryResult :=
  match d with
  | [] => None
  | (k', v) :: d' => if String.eqb k k' then Some v else lookup d' k
  end.

(** [_pass] *)
Definition _pass (category : string) (message : Msg) (v : Validator)
  : option Validator :=
  match update (test_results v) category
               (fun r => mkCategoryResult (passed r + 1) (failed r)
                           (details r ++ [(PASS, message)])) with
  | Some results => Some (mkValidator results (printed v ++ [Message message]))
  | None => None
  end.

(** [_fail] *)
Definition _fail (category : string) (message : Msg) (v : Validator)
  : option Validator :=
  match update (test_results v) category
               (fun r => mkCategoryResult (passed r) (failed r + 1)
                           (details r ++ [(FAIL, message)])) with
  | Some results => Some (mkValidator results (printed v ++ [Message message]))
  | None => None
  end.

Definition test_files : list string :=
  ["WordSuggestTests.swift"; "UIComponentTests.swift"].

(** One round of a loop of [test_project_structure]. *)
Definition check_file (fs : VerifyProject.FileSystem)
           (found missing : string -> Msg) (v : option Validator)
           (file : string) : option Validator :=
  match v with
  | Some v =>
      if VerifyProject.path_exists fs file
      then _pass "structure" (found file) v
      else _fail "structure" (missing file) v
  | None => None
  end.

(** The heading printed at line 42. *)
Definition print_heading (v : Validator) : Validator :=
  mkValidator (test_results v) (printed v ++ [StructureHeading]).

(** [test_project_structure]: the heading, then the two loops, one after
    the other. *)
Definition test_project_structure (fs : VerifyProject.FileSystem)
           (v : Validator) : option Validator :=
  let v1 := fold_left (check_file fs FoundRequiredFile MissingRequiredFile)
                      VerifyProject.required_files
                      (Some (print_heading v)) in
  fold_left (check_file fs FoundTestFile MissingTestFile) test_files v1.

(** An integer count as a float; exact below 2^53, as the counts are. *)
Definition float_of_nat (n : nat) : float :=
  PrimFloat.of_uint63 (Uint63.of_Z (Z.of_nat n)).

(** [(passed / total) * 100] *)
Definition percentage (passed total : nat) : float :=
  (float_of_nat passed / float_of_nat total * 100)%float.

Inductive Status : Type := StatusPass | StatusWarn | StatusFail.

(** The status line of one category in [generate_report]; a category
    with no results is not reported. *)
Definition category_status (r : CategoryResult) : option Status :=
  let total := passed r + failed r in
  if (0 <? total)%nat then
    let p := percentage (passed r) total in
    Some (if PrimFloat.leb 80 p then StatusPass
          else if PrimFloat.leb 60 p then StatusWarn
          else StatusFail)
  else None.

Inductive Grade : Type := Excellent | Good | Fair | Poor.

(** The overall verdict of [generate_report]. *)
Definition overall_grade (results : Results) : Grade :=
  let total_passed := list_sum (map (fun e => passed (snd e)) results) in
  let total_failed := list_sum (map (fun e => failed (snd e)) results) in
  let total_tests := total_passed + total_failed in
  let overall_percentage :=
    if (0 <? total_tests)%nat then percentage total_passed total_tests
    else 0%float in
  if PrimFloat.leb 90 overall_percentage then Excellent
  else if PrimFloat.leb 80 overall_percentage then Good
  else if PrimFloat.leb 70 overall_percentage then Fair
  else Poor.

(** The counters of an entry agree with its list of details. *)
Definition counters_agree (r : CategoryResult) : Prop :=
  passed r
  = List.length (filter (fun d => match fst d with PASS => true | FAIL => false end)
                        (details r))
  /\ failed r
     = List.length (filter (fun d => match fst d with FAIL => true | PASS => false end)
                           (details r)).

(** A call of [_pass] or of [_fail]. *)
Inductive Call : Type :=
| CallPass (category : string) (message : Msg)
| CallFail (category : string) (message : Msg).

Definition category_of (c : Call) : string :=
  match c with CallPass category _ | CallFail category _ => category end.

Definition run_call (c : Call) (v : Validator) : option Validator :=
  match c with
  | CallPass category message => _pass category message v
  | CallFail category message => _fail category message v
  end.

(** Calls in sequence; the first [KeyError] ends the run. *)
Fixpoint run_calls (cs : list Call) (v : Validator) : option Validator :=
  match cs with
  | [] => Some v
  | c :: cs' =>
      match run_call c v with
      | Some v' => run_calls cs' v'
      | None => None
      end
  end.

(** The six categories of the table. *)
Definition categories : list string :=
  ["structure"; "code_quality"; "logic"; "integration"; "security";
   "performance"].

(** The status and the grade computed with exact integer arithmetic. *)
Definition exact_status (passed failed : nat) : option Status :=
  let total := passed + failed in
  if (0 <? total)%nat then
    Some (if (4 * total <=? 5 * passed)%nat then StatusPass
          else if (3 * total <=? 5 * passed)%nat then StatusWarn
          else StatusFail)
  else None.

Definition exact_grade (passed failed : nat) : Grade :=
  let total := passed + failed in
  if (0 <? total)%nat && (9 * total <=? 10 * passed)%nat then Excellent
  else if (0 <? total)%nat && (8 * total <=? 10 * passed)%nat then Good
  else if (0 <? total)%nat && (7 * total <=? 10 * passed)%nat then Fair
  else Poor.

(** The float verdicts on the counts themselves. *)
Definition status_of_counts (passed failed : nat) : option Status :=
  category_status (mkCategoryResult passed failed []).

Definition grade_of_counts (passed failed : nat) : Grade :=
  let total := passed + failed in
  let overall_percentage :=
    if (0 <? total)%nat then percentage passed total else 0%float in
  if PrimFloat.leb 90 overall_percentage then Excellent
  else if PrimFloat.leb 80 overall_percentage then Good
  else if PrimFloat.leb 70 overall_percentage then Fair
  else Poor.

End TestRunner.

(** ** Reading aids for the result table *)

Section ResultTableAids.
Import TestRunner.

(** The detail a call appends. *)
Definition detail_of (c : Call) : Verdict * Msg :=
  match c with
  | CallPass _ message => (PASS, message)
  | CallFail _ message => (FAIL, message)
  end.

Definition is_pass (d : Verdict * Msg) : bool :=
  match fst d with PASS => true | FAIL => false end.

Definition is_fail (d : Verdict * Msg) : bool :=
  match fst d with FAIL => true | PASS => false end.

(** The details the calls of [cs] append under the category [k]. *)
Definition calls_details (k : string) (cs : list Call)
  : list (Verdict * Msg) :=
  map detail_of (filter (fun c => String.eqb k (category_of c)) cs).

(** The calls [test_project_structure] makes on a file system. *)
Definition structure_calls (fs : VerifyProject.FileSystem) : list Call :=
  map (fun file =>
         if VerifyProject.path_exists fs file
         then CallPass "structure" (FoundRequiredFile file)
         else CallFail "structure" (MissingRequiredFile file))
      VerifyProject.required_files
  ++ map (fun file =>
            if VerifyProject.path_exists fs file
            then CallPass "structure" (FoundTestFile file)
            else CallFail "structure" (MissingTestFile file))
         test_files.

(** The nine files the structure test looks for. *)
Definition structure_files : list string :=
  VerifyProject.required_files ++ test_files.

Definition status_beq (a b : option Status) : bool :=
  match a, b with
  | None, None => true
  | Some StatusPass, Some StatusPass => true
  | Some StatusWarn, Some StatusWarn => true
  | Some StatusFail, Some StatusFail => true
  | _, _ => false
  end.

Definition grade_beq (a b : Grade) : bool :=
  match a, b with
  | Excellent, Excellent | Good, Good | Fair, Fair | Poor, Poor => true
  | _, _ => false
  end.

(** The float verdicts agree with the exact ones on every split of
    every total up to [bound]. *)
Definition verdicts_agree_upto (bound : nat) : bool :=
  forallb
    (fun total =>
       forallb
         (fun p =>
            status_beq (status_of_counts p (total - p))
                       (exact_status p (total - p))
            && grade_beq (grade_of_counts p (total - p))
                         (exact_grade p (total - p)))
         (seq 0 (total + 1)))
    (seq 0 (bound + 1)).

End ResultTableAids.

(** ** Facts about the string primitives *)

Section StringFacts.

(** Case analysis over all 256 characters. *)
Ltac each_char c := destruct c as [[] [] [] [] [] [] [] []]; reflexivity.

Lemma lower_char_idem (c : ascii) : lower_char (lower_char c) = lower_char c.
Proof. each_char c. Qed.

Lemma is_space_lower_char (c : ascii) : is_space (lower_char c) = is_space c.
Proof. each_char c. Qed.

Lemma lower_idem (s : string) : lower (lower s) = lower s.
Proof.
  induction s as [|c s IH]; simpl; [reflexivity|].
  now rewrite lower_char_idem, IH.
Qed.

Lemma lower_lstrip (s : string) : lower (lstrip s) = lstrip (lower s).
Proof.
  induction s as [|c s IH]; simpl; [reflexivity|].
  rewrite is_space_lower_char. now destruct (is_space c).
Qed.

(** [rstrip] drops the head exactly when it is white space and nothing
    survives behind it. *)
Lemma rstrip_cons (c : ascii) (s : string) :
  rstrip (String c s)
  = if is_empty (rstrip s) && is_space c then EmptyString
    else String c (rstrip s).
Proof. simpl. destruct (rstrip s); simpl; now destruct (is_space c). Qed.

Lemma is_empty_lower (s : string) : is_empty (lower s) = is_empty s.
Proof. now destruct s. Qed.

Lemma lower_rstrip (s : string) : lower (rstrip s) = rstrip (lower s).
Proof.
  induction s as [|c s IH]; [reflexivity|].
  change (lower (String c s)) with (String (lower_char c) (lower s)).
  rewrite !rstrip_cons, <- IH, is_empty_lower, is_space_lower_char.
  now destruct (is_empty (rstrip s) && is_space c).
Qed.

Lemma lower_strip (s : string) : lower (strip s) = strip (lower s).
Proof. unfold strip. now rewrite lower_rstrip, lower_lstrip. Qed.

Lemma rstrip_idem (s : string) : rstrip (rstrip s) = rstrip s.
Proof.
  induction s as [|c s IH]; [reflexivity|].
  rewrite rstrip_cons.
  destruct (is_empty (rstrip s)) eqn:E, (is_space c) eqn:Sp;
    cbn [andb]; try reflexivity; now rewrite rstrip_cons, IH, E, Sp.
Qed.

(** What [lstrip] leaves does not start with white space. *)
Lemma lstrip_head (s : string) :
  match lstrip s with
  | EmptyString => True
  | String c _ => is_space c = false
  end.
Proof.
  induction s as [|c s IH]; simpl; [exact I|].
  destruct (is_space c) eqn:Sp; [exact IH | exact Sp].
Qed.

Lemma lstrip_rstrip_lstrip (s : string) :
  lstrip (rstrip (lstrip s)) = rstrip (lstrip s).
Proof.
  pose proof (lstrip_head s) as H.
  destruct (lstrip s) as [|c r]; [reflexivity|].
  rewrite rstrip_cons, H, andb_false_r. simpl. now rewrite H.
Qed.

Lemma strip_idem (s : string) : strip (strip s) = strip s.
Proof. unfold strip. now rewrite lstrip_rstrip_lstrip, rstrip_idem. Qed.

(** The normalization of line 49 is idempotent. *)
Lemma clean_idem (s : string) : lower (strip (lower (strip s))) = lower (strip s).
Proof. now rewrite <- lower_strip, lower_idem, strip_idem. Qed.

Lemma clean_lower (s : string) : lower (strip (lower s)) = lower (strip s).
Proof. now rewrite <- lower_strip, lower_idem. Qed.

Lemma prefix_app (p s : string) :
  String.prefix p s = true <-> exists r, s = (p ++ r)%string.
Proof.
  revert s. induction p as [|c p IH]; intros s; simpl.
  - split; [now exists s | now destruct s].
  - destruct s as [|c' s]; simpl;
      [split; [discriminate | now intros [r H]]|].
    destruct (ascii_dec c c') as [E|N].
    + rewrite IH. split; intros [r H]; exists r; congruence.
    + split; [discriminate | intros [r H]; congruence].
Qed.

(** [str_in] is Python's substring test. *)
Lemma str_in_spec (needle hay : string) :
  str_in needle hay = true
  <-> exists a b, hay = (a ++ needle ++ b)%string.
Proof.
  induction hay as [|c hay IH].
  - cbn [str_in]. rewrite orb_false_r, prefix_app. split.
    + intros [r H]. now exists EmptyString, r.
    + intros [[|? ?] [b H]]; [now exists b | discriminate].
  - cbn [str_in]. rewrite orb_true_iff, prefix_app, IH. split.
    + intros [[r H]|[a [b H]]].
      * now exists EmptyString, r.
      * exists (String c a), b. simpl. now rewrite H.
    + intros [[|c' a] [b H]].
      * left. now exists b.
      * right. exists a, b. simpl in H. congruence.
Qed.

End StringFacts.

(** ** The lexicon *)

Lemma dict_get_In (d : Dict) (k : string) (v : list string) :
  dict_get d k = Some v -> In (k, v) d.
Proof.
  induction d as [|[k' v'] d IH]; simpl; [discriminate|].
  destruct (String.eqb k k') eqn:E.
  - apply String.eqb_eq in E. intros [= ->]. subst. now left.
  - intros H. right. now apply IH.
Qed.

Lemma built_in_five_candidates :
  Forall (fun e => List.length (snd e) = 5) built_in_synonyms.
Proof. repeat constructor. Qed.

Lemma built_in_entry_length (k : string) (v : list string) :
  In (k, v) built_in_synonyms -> List.length v = 5.
Proof.
  intros H.
  exact (proj1 (Forall_forall _ _) built_in_five_candidates (k, v) H).
Qed.

(** Splits a list known to have five elements into its elements. *)
Ltac five_elements v H :=
  destruct v as [|? [|? [|? [|? [|? [|? ?]]]]]]; simpl in H; try discriminate H.

(** ** The exact-match branch *)

Lemma exact_branch (text : string) (synonyms : list string) :
  dict_get built_in_synonyms (lower (strip text)) = Some synonyms ->
  get_suggestions text = map synonym (firstn 5 synonyms).
Proof.
  intros H.
  pose proof (built_in_entry_length _ _ (dict_get_In _ _ _ H)) as L.
  unfold get_suggestions, get_suggestions_in, exact_match.
  rewrite H. five_elements synonyms L. reflexivity.
Qed.

(** C4: when the normalized input is a lexicon key, the lookup returns the
    first five candidates of that entry, each tagged synonym at confidence
    0.8, in the stored order; for "good" these are excellent, great,
    wonderful, fantastic and superb. *)
Theorem exact_match_returns_synonyms :
  (forall (text : string) (synonyms : list string),
      dict_get built_in_synonyms (lower (strip text)) = Some synonyms ->
      get_suggestions text
      = map (fun w => mkWordSuggestion w "synonym" 0.8%float)
            (firstn 5 synonyms))
  /\ get_suggestions "good"
     = [ mkWordSuggestion "excellent" "synonym" 0.8%float;
         mkWordSuggestion "great" "synonym" 0.8%float;
         mkWordSuggestion "wonderful" "synonym" 0.8%float;
         mkWordSuggestion "fantastic" "synonym" 0.8%float;
         mkWordSuggestion "superb" "synonym" 0.8%float ].
Proof.
  split.
  - intros text synonyms H. now apply exact_branch.
  - reflexivity.
Qed.

Lemma exact_match_returns_synonyms_witness :
  dict_get built_in_synonyms (lower (strip "  Fast "))
  = Some ["quick"; "rapid"; "swift"; "speedy"; "hasty"]
  /\ get_suggestions "  Fast "
     = map (fun w => mkWordSuggestion w "synonym" 0.8%float)
           (firstn 5 ["quick"; "rapid"; "swift"; "speedy"; "hasty"]).
Proof.
  split.
  - reflexivity.
  - apply (proj1 exact_match_returns_synonyms "  Fast "). reflexivity.
Defined.

(** ** The partial-match branch *)

Section Scan.

(** The cleaned input the keys are tested against. *)
Variable clean_text : string.

Lemma partial_match_first_match (items : Dict) :
  partial_match items clean_text
  = match first_match items clean_text with
    | Some (_, synonyms) => map related (firstn 3 synonyms)
    | None => []
    end.
Proof.
  induction items as [|[key synonyms] rest IH]; simpl; [reflexivity|].
  now destruct (key_matches clean_text key).
Qed.

Lemma first_match_split (pre post : Dict) (key : string)
      (synonyms : list string) :
  (forall k v, In (k, v) pre -> key_matches clean_text k = false) ->
  key_matches clean_text key = true ->
  first_match (pre ++ (key, synonyms) :: post) clean_text
  = Some (key, synonyms).
Proof.
  intros Hpre Hkey. induction pre as [|[k v] pre IH]; simpl.
  - now rewrite Hkey.
  - rewrite (Hpre k v) by now left.
    apply IH. intros k' v' Hin. apply (Hpre k' v'). now right.
Qed.

Lemma first_match_none (items : Dict) :
  (forall k v, In (k, v) items -> key_matches clean_text k = false) ->
  first_match items clean_text = None.
Proof.
  intros H. induction items as [|[k v] rest IH]; simpl; [reflexivity|].
  rewrite (H k v) by now left.
  apply IH. intros k' v' Hin. apply (H k' v'). now right.
Qed.

Lemma exact_match_none (d : Dict) :
  dict_get d clean_text = None -> exact_match d clean_text = [].
Proof. unfold exact_match. now intros ->. Qed.

End Scan.

Lemma partial_branch (text key : string) (synonyms : list string) :
  dict_get built_in_synonyms (lower (strip text)) = None ->
  first_match built_in_synonyms (lower (strip text)) = Some (key, synonyms) ->
  get_suggestions text = map related (firstn 3 synonyms).
Proof.
  intros Hx Hp.
  assert (L : List.length synonyms = 5).
  { apply (built_in_entry_length key). apply find_some in Hp. apply Hp. }
  unfold get_suggestions, get_suggestions_in.
  rewrite (exact_match_none _ _ Hx), partial_match_first_match, Hp.
  five_elements synonyms L. reflexivity.
Qed.

Lemma no_match_branch (text : string) :
  dict_get built_in_synonyms (lower (strip text)) = None ->
  first_match built_in_synonyms (lower (strip text)) = None ->
  get_suggestions text = map alternative general_alternatives.
Proof.
  intros Hx Hp. unfold get_suggestions, get_suggestions_in.
  now rewrite (exact_match_none _ _ Hx), partial_match_first_match, Hp.
Qed.

(** C5: with no exact match the keys are scanned in insertion order and
    the first key that contains the input or is contained in it decides:
    the result is the first three candidates of that entry, tagged related
    at confidence 0.6; for "beauti" these come from the entry of
    "beautiful". *)
Theorem partial_match_first_hit :
  (forall (text key : string) (synonyms : list string) (pre post : Dict),
      built_in_synonyms = pre ++ (key, synonyms) :: post ->
      dict_get built_in_synonyms (lower (strip text)) = None ->
      (forall k v, In (k, v) pre ->
                   str_in k (lower (strip text)) = false
                   /\ str_in (lower (strip text)) k = false) ->
      str_in key (lower (strip text)) = true
      \/ str_in (lower (strip text)) key = true ->
      get_suggestions text
      = map (fun w => mkWordSuggestion w "related" 0.6%float)
            (firstn 3 synonyms))
  /\ dict_get built_in_synonyms "beautiful"
     = Some ["gorgeous"; "stunning"; "attractive"; "lovely"; "magnificent"]
  /\ get_suggestions "beauti"
     = [ mkWordSuggestion "gorgeous" "related" 0.6%float;
         mkWordSuggestion "stunning" "related" 0.6%float;
         mkWordSuggestion "attractive" "related" 0.6%float ].
Proof.
  split; [|split; reflexivity].
  intros text key synonyms pre post Hsplit Hx Hpre Hkey.
  apply (partial_branch text key); [exact Hx|].
  rewrite Hsplit. apply first_match_split.
  - intros k v Hin. unfold key_matches.
    destruct (Hpre k v Hin) as [-> ->]. reflexivity.
  - unfold key_matches. now apply orb_true_iff.
Qed.

(** "coldest" contains both "old" and "cold"; "old" is declared first. *)
Lemma partial_match_first_hit_witness :
  dict_get built_in_synonyms (lower (strip "coldest")) = None
  /\ str_in "old" (lower (strip "coldest")) = true
  /\ get_suggestions "coldest"
     = map (fun w => mkWordSuggestion w "related" 0.6%float)
           (firstn 3 ["ancient"; "vintage"; "aged"; "elderly"; "antique"]).
Proof.
  split; [reflexivity|]. split; [reflexivity|].
  apply (proj1 partial_match_first_hit "coldest" "old"
               ["ancient"; "vintage"; "aged"; "elderly"; "antique"]
               (firstn 16 built_in_synonyms) (skipn 17 built_in_synonyms)).
  - reflexivity.
  - reflexivity.
  - intros k v Hin. simpl in Hin.
    repeat (destruct Hin as [[= <- <-]|Hin]; [split; reflexivity|]).
    contradiction.
  - left. reflexivity.
Defined.

(** ** The padding block *)

(** C2, as stated, fails: "unknownword" matches no key, and the result
    is not the three fillers alternative, option, choice. *)
Lemma unknownword_not_three_fillers :
  dict_get built_in_synonyms (lower (strip "unknownword")) = None
  /\ first_match built_in_synonyms (lower (strip "unknownword")) = None
  /\ List.length (get_suggestions "unknownword") = 5
  /\ ~ pads_to_three "unknownword".
Proof.
  repeat split; try reflexivity.
  unfold pads_to_three. vm_compute. discriminate.
Qed.

(** C2, amended: when no key matches exactly or partially, the result is
    the five fillers alternative, option, choice, variant, substitute, in
    that order, each tagged alternative at confidence 0.4 (the slice runs
    to five entries in total, not three). *)
Theorem no_match_returns_five_fillers (text : string) :
  dict_get built_in_synonyms (lower (strip text)) = None ->
  (forall k v, In (k, v) built_in_synonyms ->
               str_in k (lower (strip text)) = false
               /\ str_in (lower (strip text)) k = false) ->
  get_suggestions text
  = [ mkWordSuggestion "alternative" "alternative" 0.4%float;
      mkWordSuggestion "option" "alternative" 0.4%float;
      mkWordSuggestion "choice" "alternative" 0.4%float;
      mkWordSuggestion "variant" "alternative" 0.4%float;
      mkWordSuggestion "substitute" "alternative" 0.4%float ].
Proof.
  intros Hx Hp. apply no_match_branch; [exact Hx|].
  apply first_match_none. intros k v Hin. unfold key_matches.
  destruct (Hp k v Hin) as [-> ->]. reflexivity.
Qed.

Lemma no_match_returns_five_fillers_witness :
  dict_get built_in_synonyms (lower (strip "unknownword")) = None
  /\ get_suggestions "unknownword"
     = [ mkWordSuggestion "alternative" "alternative" 0.4%float;
         mkWordSuggestion "option" "alternative" 0.4%float;
         mkWordSuggestion "choice" "alternative" 0.4%float;
         mkWordSuggestion "variant" "alternative" 0.4%float;
         mkWordSuggestion "substitute" "alternative" 0.4%float ].
Proof.
  split; [reflexivity|].
  apply (no_match_returns_five_fillers "unknownword"); [reflexivity|].
  intros k v Hin. simpl in Hin.
  repeat (destruct Hin as [[= <- <-]|Hin]; [split; reflexivity|]).
  contradiction.
Defined.

(** ** Case insensitivity *)

(** C7: the lookup sees its input only through [strip] and [lower], so it
    returns the same list on the input, on its lowercased form and on its
    trimmed and lowercased form; "HAPPY" and "happy" get the same answer. *)
Theorem lookup_case_insensitive :
  (forall text : string,
      get_suggestions text = get_suggestions (lower text)
      /\ get_suggestions text = get_suggestions (lower (strip text)))
  /\ get_suggestions "HAPPY" = get_suggestions "happy".
Proof.
  split; [|reflexivity].
  intros text. unfold get_suggestions, get_suggestions_in.
  now rewrite clean_lower, clean_idem.
Qed.

(** ** Size of the result *)

Lemma branch_cases (text : string) :
  match branch_of text with
  | ExactMatch =>
      exists key synonyms,
        In (key, synonyms) built_in_synonyms
        /\ get_suggestions text = map synonym synonyms
  | PartialMatch =>
      exists key synonyms,
        In (key, synonyms) built_in_synonyms
        /\ get_suggestions text = map related (firstn 3 synonyms)
  | NoMatch => get_suggestions text = map alternative general_alternatives
  end.
Proof.
  unfold branch_of.
  destruct (dict_get built_in_synonyms (lower (strip text)))
    as [synonyms|] eqn:Hx.
  - exists (lower (strip text)), synonyms.
    pose proof (dict_get_In _ _ _ Hx) as Hin. split; [exact Hin|].
    rewrite (exact_branch _ _ Hx).
    pose proof (built_in_entry_length _ _ Hin) as L.
    five_elements synonyms L. reflexivity.
  - destruct (first_match built_in_synonyms (lower (strip text)))
      as [[key synonyms]|] eqn:Hp.
    + exists key, synonyms. split.
      * apply find_some in Hp. apply Hp.
      * now apply (partial_branch text key).
    + now apply no_match_branch.
Qed.

Example branch_of_good : branch_of "good" = ExactMatch.
Proof. reflexivity. Qed.

Example branch_of_very_good : branch_of "very good" = PartialMatch.
Proof. reflexivity. Qed.

Example branch_of_unknownword : branch_of "unknownword" = NoMatch.
Proof. reflexivity. Qed.

(** The empty string occurs in every key: a blank input is a partial
    match of the first entry. *)
Example branch_of_blank : branch_of "   " = PartialMatch.
Proof. reflexivity. Qed.

(** C10: on every input, the empty and the white-space-only string
    included, the result is non-empty and has three entries (partial-match
    branch) or five (exact-match branch, and the no-match branch, which is
    the five fillers). *)
Theorem get_suggestions_length (text : string) :
  get_suggestions text <> []
  /\ 3 <= List.length (get_suggestions text)
  /\ (List.length (get_suggestions text) = 3
      \/ List.length (get_suggestions text) = 5)
  /\ match branch_of text with
     | ExactMatch => List.length (get_suggestions text) = 5
     | PartialMatch => List.length (get_suggestions text) = 3
     | NoMatch =>
         List.length (get_suggestions text) = 5
         /\ get_suggestions text
            = map (fun alt => mkWordSuggestion alt "alternative" 0.4%float)
                  ["alternative"; "option"; "choice"; "variant"; "substitute"]
     end.
Proof.
  pose proof (branch_cases text) as H.
  destruct (branch_of text).
  - destruct H as (key & synonyms & Hin & ->).
    pose proof (built_in_entry_length _ _ Hin) as L.
    rewrite length_map, L. repeat split; try lia. five_elements synonyms L.
    discriminate.
  - destruct H as (key & synonyms & Hin & ->).
    pose proof (built_in_entry_length _ _ Hin) as L.
    five_elements synonyms L. simpl. repeat split; try lia. discriminate.
  - rewrite H. simpl. repeat split; try lia. discriminate.
Qed.

(** ** Invariants of the result *)

Lemma nodupb_sound (l : list string) : nodupb l = true -> NoDup l.
Proof.
  induction l as [|x l IH]; simpl; [constructor|].
  rewrite andb_true_iff, negb_true_iff. intros [Hx Hl].
  constructor; [|now apply IH].
  intros Hin.
  assert (E : existsb (String.eqb x) l = true).
  { apply existsb_exists. exists x. split; [exact Hin|apply String.eqb_refl]. }
  congruence.
Qed.

Lemma non_increasingb_sound (l : list float) :
  non_increasingb l = true -> StronglySorted conf_ge l.
Proof.
  induction l as [|x l IH]; simpl; [constructor|].
  rewrite andb_true_iff. intros [Hx Hl].
  constructor; [now apply IH|].
  apply Forall_forall. intros y Hy.
  exact (proj1 (forallb_forall _ _) Hx y Hy).
Qed.

Lemma well_formedb_sound (r : list WordSuggestion) :
  well_formedb r = true ->
  NoDup (map normalized_word r)
  /\ StronglySorted conf_ge (map confidence r)
  /\ List.length r <= 5.
Proof.
  unfold well_formedb. rewrite !andb_true_iff. intros [[Hn Hs] Hl].
  repeat split.
  - now apply nodupb_sound.
  - now apply non_increasingb_sound.
  - now apply Nat.leb_le.
Qed.

Lemma built_in_entries_well_formed (key : string) (synonyms : list string) :
  In (key, synonyms) built_in_synonyms ->
  well_formedb (map synonym synonyms) = true
  /\ well_formedb (map related (firstn 3 synonyms)) = true.
Proof.
  intros Hin.
  assert (H : forallb (fun e => well_formedb (map synonym (snd e))
                                && well_formedb (map related (firstn 3 (snd e))))
                      built_in_synonyms = true) by (vm_compute; reflexivity).
  apply andb_true_iff.
  exact (proj1 (forallb_forall _ _) H (key, synonyms) Hin).
Qed.

(** C1: on every input, a non-empty one in particular, the result holds
    no two suggestions whose words agree up to case, its confidences never
    increase from one entry to a later one, and it has at most five
    entries. *)
Theorem get_suggestions_well_formed (text : string) :
  NoDup (map (fun s => lower (word s)) (get_suggestions text))
  /\ StronglySorted (fun x y => PrimFloat.leb y x = true)
                    (map confidence (get_suggestions text))
  /\ List.length (get_suggestions text) <= 5.
Proof.
  apply (well_formedb_sound (get_suggestions text)).
  pose proof (branch_cases text) as H.
  destruct (branch_of text).
  - destruct H as (key & synonyms & Hin & ->).
    apply (built_in_entries_well_formed key synonyms Hin).
  - destruct H as (key & synonyms & Hin & ->).
    apply (built_in_entries_well_formed key synonyms Hin).
  - rewrite H. vm_compute. reflexivity.
Qed.

(** ** Trailing punctuation *)

(** C6, as stated, fails: "good!" is not looked up as "good" (it takes
    the partial-match branch), and "cold!" is answered from the entry of
    "old". *)
Lemma trailing_punctuation_not_stripped :
  dict_get built_in_synonyms "good"
  = Some ["excellent"; "great"; "wonderful"; "fantastic"; "superb"]
  /\ is_punctuation "!" = true
  /\ ~ strips_trailing_punctuation "good" "!"
  /\ get_suggestions "cold!"
     = map related ["ancient"; "vintage"; "aged"].
Proof.
  repeat split; try reflexivity.
  intros [H _]. vm_compute in H. discriminate.
Qed.

(** The thirty-two punctuation characters, by code point. *)
Lemma punctuation_cases (p : ascii) :
  is_punctuation p = true ->
  In (N_of_ascii p)
     (map N.of_nat (seq 33 15 ++ seq 58 7 ++ seq 91 6 ++ seq 123 4)).
Proof.
  destruct p as [[] [] [] [] [] [] [] []]; vm_compute; intros H;
    try discriminate H; tauto.
Qed.

(** C6, amended: the input is normalized by trimming and lowercasing
    only; a trailing punctuation character stays.  For every lexicon key w
    and punctuation character p the lookup of w followed by p finds no
    exact match and takes the partial-match branch: it returns the first
    three candidates, tagged related at confidence 0.6, of w's own entry,
    or of the entry of "old" when w is "cold", since "old" is declared
    first and occurs in "cold". *)
Theorem trailing_punctuation_partial_branch (w : string)
        (synonyms : list string) (p : ascii) :
  In (w, synonyms) built_in_synonyms ->
  is_punctuation p = true ->
  branch_of (w ++ String p EmptyString) = PartialMatch
  /\ get_suggestions (w ++ String p EmptyString)
     = map related
           (firstn 3 (if String.eqb w "cold"
                      then ["ancient"; "vintage"; "aged"; "elderly"; "antique"]
                      else synonyms)).
Proof.
  intros Hin Hp. apply punctuation_cases in Hp.
  rewrite <- (ascii_N_embedding p).
  simpl in Hin, Hp.
  repeat (destruct Hin as [[= <- <-]|Hin];
          [repeat (destruct Hp as [<-|Hp]; [vm_compute; split; reflexivity|]);
           contradiction|]).
  contradiction.
Qed.

Lemma trailing_punctuation_partial_branch_witness :
  In ("good", ["excellent"; "great"; "wonderful"; "fantastic"; "superb"])
     built_in_synonyms
  /\ is_punctuation "!" = true
  /\ branch_of "good!" = PartialMatch
  /\ get_suggestions "good!" = map related ["excellent"; "great"; "wonderful"].
Proof.
  assert (Hin : In ("good", ["excellent"; "great"; "wonderful"; "fantastic";
                             "superb"]) built_in_synonyms) by now left.
  split; [exact Hin|]. split; [reflexivity|].
  exact (trailing_punctuation_partial_branch "good" _ "!" Hin eq_refl).
Defined.

(** ** The selection handler *)

Lemma is_empty_true (s : string) : is_empty s = true <-> s = EmptyString.
Proof. destruct s; simpl; split; congruence. Qed.

Lemma get_suggestions_nonempty (text : string) : get_suggestions text <> [].
Proof.
  pose proof (branch_cases text) as H.
  destruct (branch_of text).
  - destruct H as (key & synonyms & Hin & ->).
    pose proof (built_in_entry_length _ _ Hin) as L.
    five_elements synonyms L. discriminate.
  - destruct H as (key & synonyms & Hin & ->).
    pose proof (built_in_entry_length _ _ Hin) as L.
    five_elements synonyms L. discriminate.
  - rewrite H. discriminate.
Qed.

(** A blank selection takes the early return of lines 202-204. *)
Lemma text_selection_detected_blank (app : MockAppDelegate) (text : string)
      (pos : Z * Z) :
  strip text = EmptyString ->
  text_selection_detected text pos app
  = (tt, app, [Print EmptySelectionIgnored]).
Proof. intros H. unfold text_selection_detected. now rewrite H. Qed.

(** Any other selection is looked up once, trimmed, and its answer shown. *)
Lemma text_selection_detected_shows (app : MockAppDelegate) (text : string)
      (pos : Z * Z) :
  strip text <> EmptyString ->
  let r := text_selection_detected text pos app in
  suggestion_window (state_of r)
  = mkWindow true (get_suggestions (strip text)) pos
  /\ filter is_lookup (log_of r) = [CallGetSuggestions (strip text)].
Proof.
  intros H. unfold text_selection_detected.
  destruct (is_empty (strip text)) eqn:E.
  - now apply is_empty_true in E.
  - pose proof (get_suggestions_nonempty (strip text)) as N.
    unfold bind, call_get_suggestions, emit, ret, bind, state_of, log_of.
    simpl. destruct (get_suggestions (strip text)) as [|s l]; [contradiction|].
    simpl. split; reflexivity.
Qed.

(** C3, as stated, fails: called on three spaces the lookup returns
    three related suggestions, taken from the first entry, because the
    empty string occurs in every key. *)
Lemma blank_lookup_not_empty :
  strip "   " = EmptyString
  /\ get_suggestions "   " = map related ["excellent"; "great"; "wonderful"]
  /\ ~ blank_input_returns_empty "   ".
Proof.
  repeat split; try reflexivity.
  intros H. specialize (H eq_refl). vm_compute in H. discriminate.
Qed.

(** C3, amended: for every selection that is empty after trimming no
    lookup is made at all: the handler, reached directly or through the
    monitor, returns before it calls [get_suggestions], presents nothing
    and leaves the application as it was. *)
Theorem blank_selection_makes_no_lookup (app : MockAppDelegate)
        (text : string) (pos : Z * Z) :
  strip text = EmptyString ->
  (existsb is_lookup (log_of (text_selection_detected text pos app)) = false
   /\ state_of (text_selection_detected text pos app) = app)
  /\ (existsb is_lookup (log_of (simulate_text_selection text pos app)) = false
      /\ existsb is_window_call
                 (log_of (simulate_text_selection text pos app)) = false
      /\ state_of (simulate_text_selection text pos app) = app).
Proof.
  intros H. split.
  - now rewrite (text_selection_detected_blank app text pos H).
  - unfold simulate_text_selection, bind, get_app.
    destruct (is_monitoring (text_monitor app)); simpl.
    + now rewrite (text_selection_detected_blank app text pos H).
    + repeat split.
Qed.

Lemma blank_selection_makes_no_lookup_witness :
  strip "   " = EmptyString
  /\ existsb is_lookup
       (log_of (simulate_text_selection "   " (250, 500)%Z app_showing_good))
     = false.
Proof.
  split; [reflexivity|].
  apply (blank_selection_makes_no_lookup app_showing_good "   " (250, 500)%Z).
  reflexivity.
Defined.

(** C8, as stated, fails: with the answer to "good" on display, a
    selection of three spaces leaves the window visible and calls
    neither [show_suggestions] nor [hide]. *)
Lemma empty_selection_keeps_overlay :
  is_visible (suggestion_window app_showing_good) = true
  /\ ~ empty_selection_hides app_showing_good "   " (250, 500)%Z.
Proof.
  split; [reflexivity|].
  intros H. destruct (H eq_refl) as [H1 _]. vm_compute in H1. discriminate.
Qed.

(** C8, amended: a selection whose text is empty after trimming is
    ignored: the handler makes no suggestion call and returns at once,
    printing only that the selection was ignored; the presentation
    collaborator is not called, so the window, visible or not, stays as
    it was. *)
Theorem empty_selection_is_ignored (app : MockAppDelegate) (text : string)
        (pos : Z * Z) :
  strip text = EmptyString ->
  log_of (text_selection_detected text pos app) = [Print EmptySelectionIgnored]
  /\ suggestion_window (state_of (text_selection_detected text pos app))
     = suggestion_window app
  /\ state_of (text_selection_detected text pos app) = app.
Proof.
  intros H. now rewrite (text_selection_detected_blank app text pos H).
Qed.

Lemma empty_selection_is_ignored_witness :
  strip "   " = EmptyString
  /\ suggestion_window
       (state_of (text_selection_detected "   " (250, 500)%Z app_showing_good))
     = mkWindow true (get_suggestions "good") (150, 300)%Z.
Proof.
  split; [reflexivity|].
  destruct (empty_selection_is_ignored app_showing_good "   " (250, 500)%Z
              eq_refl) as (_ & -> & _).
  reflexivity.
Defined.

(** The handler is synchronous: of two selections handled one after the
    other, the window ends up showing the answer to the second. *)
Lemma second_selection_is_shown (app : MockAppDelegate) (t1 t2 : string)
      (p1 p2 : Z * Z) :
  strip t2 <> EmptyString ->
  suggestion_window
    (state_of (bind (text_selection_detected t1 p1)
                    (fun _ => text_selection_detected t2 p2) app))
  = mkWindow true (get_suggestions (strip t2)) p2.
Proof.
  intros H. unfold bind.
  destruct (text_selection_detected t1 p1 app) as [[u app1] log1].
  pose proof (text_selection_detected_shows app1 t2 p2 H) as [Hw _].
  destruct (text_selection_detected t2 p2 app1) as [[u' app2] log2].
  exact Hw.
Qed.

(** * Further properties of the lookup *)

(** ** Any lexicon *)

Lemma In_firstn {A : Type} (n : nat) (l : list A) (x : A) :
  In x (firstn n l) -> In x l.
Proof.
  revert l. induction n as [|n IH]; intros [|a l]; simpl; try contradiction.
  intros [H|H]; [now left | right; now apply IH].
Qed.

Section AnyLexicon.

(** The lexicon [self.built_in_synonyms] holds when the lookup runs. *)
Variable d : Dict.

Lemma exact_match_length (clean_text : string) :
  List.length (exact_match d clean_text) <= 5.
Proof.
  unfold exact_match. destruct (dict_get d clean_text); [|simpl; lia].
  rewrite length_map, length_firstn. lia.
Qed.

Lemma partial_match_length (items : Dict) (clean_text : string) :
  List.length (partial_match items clean_text) <= 3.
Proof.
  induction items as [|[key synonyms] rest IH]; cbn [partial_match];
    [simpl; lia|].
  destruct (key_matches clean_text key); [|exact IH].
  rewrite length_map, length_firstn. lia.
Qed.

Lemma add_alternatives_length (suggestions : list WordSuggestion) :
  List.length suggestions <= 5 ->
  3 <= List.length (add_alternatives suggestions) <= 5.
Proof.
  intros H. unfold add_alternatives.
  destruct (List.length suggestions <? 3)%nat eqn:E.
  - apply Nat.ltb_lt in E.
    rewrite length_app, length_map, length_firstn.
    change (List.length general_alternatives) with 5. lia.
  - apply Nat.ltb_ge in E. lia.
Qed.

(** X1: whatever the lexicon holds and whatever the input, the lookup
    returns at least three and at most five suggestions. *)
Theorem get_suggestions_in_length (text : string) :
  3 <= List.length (get_suggestions_in d text) <= 5.
Proof.
  unfold get_suggestions_in. apply add_alternatives_length.
  pose proof (exact_match_length (lower (strip text))) as He.
  destruct (exact_match d (lower (strip text))) as [|s l] eqn:E.
  - pose proof (partial_match_length d (lower (strip text))). lia.
  - exact He.
Qed.

Lemma exact_match_words (clean_text : string) (s : WordSuggestion) :
  In s (exact_match d clean_text) ->
  exists synonyms,
    In (clean_text, synonyms) d /\ In (word s) synonyms
    /\ type s = "synonym" /\ confidence s = 0.8%float.
Proof.
  unfold exact_match.
  destruct (dict_get d clean_text) as [synonyms|] eqn:E; [|contradiction].
  intros H. apply in_map_iff in H. destruct H as (w & <- & Hw).
  exists synonyms. repeat split.
  - now apply dict_get_In.
  - simpl. eapply In_firstn. exact Hw.
Qed.

Lemma partial_match_words (items : Dict) (clean_text : string)
      (s : WordSuggestion) :
  In s (partial_match items clean_text) ->
  exists key synonyms,
    In (key, synonyms) items /\ In (word s) synonyms
    /\ type s = "related" /\ confidence s = 0.6%float.
Proof.
  induction items as [|[key synonyms] rest IH]; cbn [partial_match];
    [contradiction|].
  destruct (key_matches clean_text key).
  - intros H. apply in_map_iff in H. destruct H as (w & <- & Hw).
    exists key, synonyms. repeat split; [now left|].
    simpl. eapply In_firstn. exact Hw.
  - intros H. destruct (IH H) as (k & v & Hin & R).
    exists k, v. split; [now right|exact R].
Qed.

Lemma add_alternatives_words (suggestions : list WordSuggestion)
      (s : WordSuggestion) :
  In s (add_alternatives suggestions) ->
  In s suggestions
  \/ (In (word s) general_alternatives
      /\ type s = "alternative" /\ confidence s = 0.4%float).
Proof.
  unfold add_alternatives.
  destruct (List.length suggestions <? 3)%nat; [|now left].
  intros H. apply in_app_or in H. destruct H as [H|H]; [now left|].
  right. apply in_map_iff in H. destruct H as (w & <- & Hw).
  repeat split. cbn [word]. eapply In_firstn. exact Hw.
Qed.

(** X2: the lookup never invents a word: every suggestion it returns is
    a stored candidate of some entry of the lexicon, tagged synonym or
    related, or one of the five fillers, tagged alternative. *)
Theorem get_suggestions_in_words (text : string) (s : WordSuggestion) :
  In s (get_suggestions_in d text) ->
  (exists key synonyms,
      In (key, synonyms) d /\ In (word s) synonyms
      /\ (type s = "synonym" /\ confidence s = 0.8%float
          \/ type s = "related" /\ confidence s = 0.6%float))
  \/ (In (word s) ["alternative"; "option"; "choice"; "variant"; "substitute"]
      /\ type s = "alternative" /\ confidence s = 0.4%float).
Proof.
  unfold get_suggestions_in. intros H.
  apply add_alternatives_words in H. destruct H as [H|H]; [left|now right].
  destruct (exact_match d (lower (strip text))) as [|s0 l] eqn:E.
  - apply partial_match_words in H. destruct H as (k & v & Hin & Hw & R).
    exists k, v. repeat split; try assumption. now right.
  - rewrite <- E in H. apply exact_match_words in H.
    destruct H as (v & Hin & Hw & R).
    exists (lower (strip text)), v. repeat split; try assumption. now left.
Qed.

Lemma exact_match_same_kind (clean_text : string) :
  same_kind "synonym" 0.8%float (exact_match d clean_text).
Proof.
  apply Forall_forall. intros s H.
  destruct (exact_match_words _ _ H) as (_ & _ & _ & R). exact R.
Qed.

Lemma partial_match_same_kind (clean_text : string) :
  same_kind "related" 0.6%float (partial_match d clean_text).
Proof.
  apply Forall_forall. intros s H.
  destruct (partial_match_words _ _ _ H) as (_ & _ & _ & _ & R). exact R.
Qed.

Lemma exact_match_candidates (clean_text : string) :
  (forall k v, In (k, v) d -> 3 <= List.length v) ->
  exact_match d clean_text = [] \/ 3 <= List.length (exact_match d clean_text).
Proof.
  intros H. unfold exact_match.
  destruct (dict_get d clean_text) as [v|] eqn:E; [right|now left].
  pose proof (H _ _ (dict_get_In _ _ _ E)).
  rewrite length_map, length_firstn. lia.
Qed.

Lemma partial_match_candidates (items : Dict) (clean_text : string) :
  (forall k v, In (k, v) items -> 3 <= List.length v) ->
  partial_match items clean_text = []
  \/ 3 <= List.length (partial_match items clean_text).
Proof.
  intros H. induction items as [|[k v] rest IH]; cbn [partial_match];
    [now left|].
  destruct (key_matches clean_text k).
  - right. pose proof (H k v (or_introl eq_refl)).
    rewrite length_map, length_firstn. lia.
  - apply IH. intros k' v' Hin. apply (H k' v'). now right.
Qed.

(** X3: when every entry of the lexicon stores at least three
    candidates, a result is of one kind: five fillers are returned only
    when nothing matched, never mixed with synonyms or related words. *)
Theorem get_suggestions_in_one_kind (text : string) :
  (forall key synonyms, In (key, synonyms) d -> 3 <= List.length synonyms) ->
  one_kind (get_suggestions_in d text).
Proof.
  intros H. unfold get_suggestions_in, one_kind.
  pose proof (exact_match_same_kind (lower (strip text))) as Ke.
  pose proof (partial_match_same_kind (lower (strip text))) as Kp.
  destruct (exact_match_candidates (lower (strip text)) H) as [E|E].
  - rewrite E.
    destruct (partial_match_candidates d (lower (strip text)) H) as [P|P].
    + rewrite P. right. right. repeat constructor.
    + right. left. unfold add_alternatives.
      destruct (Nat.ltb_spec (List.length (partial_match d (lower (strip text)))) 3);
        [lia|exact Kp].
  - left.
    destruct (exact_match d (lower (strip text))) as [|s l] eqn:X;
      [simpl in E; lia|].
    unfold add_alternatives.
    destruct (Nat.ltb_spec (List.length (s :: l)) 3); [lia|exact Ke].
Qed.

End AnyLexicon.

Lemma get_suggestions_in_one_kind_witness :
  (forall key synonyms,
      In (key, synonyms) built_in_synonyms -> 3 <= List.length synonyms)
  /\ one_kind (get_suggestions_in built_in_synonyms "very good").
Proof.
  assert (H : forall key synonyms,
             In (key, synonyms) built_in_synonyms -> 3 <= List.length synonyms).
  { intros key synonyms Hin. rewrite (built_in_entry_length _ _ Hin). lia. }
  split; [exact H|].
  exact (get_suggestions_in_one_kind built_in_synonyms "very good" H).
Defined.

Lemma get_suggestions_in_words_witness :
  In (synonym "great") (get_suggestions_in built_in_synonyms "Good")
  /\ ((exists key synonyms,
          In (key, synonyms) built_in_synonyms
          /\ In (word (synonym "great")) synonyms
          /\ (type (synonym "great") = "synonym"
              /\ confidence (synonym "great") = 0.8%float
              \/ type (synonym "great") = "related"
                 /\ confidence (synonym "great") = 0.6%float))
      \/ (In (word (synonym "great"))
              ["alternative"; "option"; "choice"; "variant"; "substitute"]
          /\ type (synonym "great") = "alternative"
          /\ confidence (synonym "great") = 0.4%float)).
Proof.
  assert (H : In (synonym "great")
                 (get_suggestions_in built_in_synonyms "Good"))
    by (vm_compute; tauto).
  split; [exact H|].
  exact (get_suggestions_in_words built_in_synonyms "Good" (synonym "great") H).
Defined.

(** With an entry of fewer than three candidates the padding does mix. *)
Example short_entry_is_padded :
  get_suggestions_in [("ok", ["fine"])] "OK"
  = [synonym "fine"; alternative "alternative"; alternative "option";
     alternative "choice"; alternative "variant"].
Proof. reflexivity. Qed.
(** ** The built-in lexicon *)

Lemma prefix_refl (s : string) : String.prefix s s = true.
Proof.
  induction s as [|c s IH]; simpl; [reflexivity|].
  now destruct (ascii_dec c c).
Qed.

Lemma str_in_refl (s : string) : str_in s s = true.
Proof. destruct s; cbn [str_in]; now rewrite prefix_refl. Qed.

Lemma first_match_none_inv (items : Dict) (clean_text : string) :
  first_match items clean_text = None ->
  forall k v, In (k, v) items -> key_matches clean_text k = false.
Proof.
  intros H k v Hin.
  exact (find_none _ _ H (k, v) Hin).
Qed.

(** X4: the five fillers are the answer exactly when no key of the
    lexicon occurs in the cleaned input and the cleaned input occurs in
    no key; an input that contains a key anywhere, or is a fragment of
    one, is never answered with fillers. *)
Theorem fillers_iff_no_key_matches (text : string) :
  get_suggestions text
  = map (fun alt => mkWordSuggestion alt "alternative" 0.4%float)
        ["alternative"; "option"; "choice"; "variant"; "substitute"]
  <-> (forall key synonyms,
          In (key, synonyms) built_in_synonyms ->
          str_in key (lower (strip text)) = false
          /\ str_in (lower (strip text)) key = false).
Proof.
  split.
  - intros R.
    destruct (dict_get built_in_synonyms (lower (strip text)))
      as [v|] eqn:Hx.
    { pose proof (built_in_entry_length _ _ (dict_get_In _ _ _ Hx)) as L.
      rewrite (exact_branch _ _ Hx) in R. five_elements v L. discriminate R. }
    destruct (first_match built_in_synonyms (lower (strip text)))
      as [[k v]|] eqn:Hp.
    { assert (L : List.length v = 5).
      { apply (built_in_entry_length k). apply find_some in Hp. apply Hp. }
      rewrite (partial_branch _ _ _ Hx Hp) in R.
      five_elements v L. discriminate R. }
    intros key synonyms Hin.
    pose proof (first_match_none_inv _ _ Hp key synonyms Hin) as N.
    unfold key_matches in N. now apply orb_false_iff in N.
  - intros N. apply no_match_branch.
    + destruct (dict_get built_in_synonyms (lower (strip text)))
        as [v|] eqn:Hx; [|reflexivity].
      destruct (N _ _ (dict_get_In _ _ _ Hx)) as [N1 _].
      rewrite str_in_refl in N1. discriminate N1.
    + apply first_match_none. intros k v Hin. unfold key_matches.
      destruct (N k v Hin) as [-> ->]. reflexivity.
Qed.

Lemma fillers_iff_no_key_matches_witness :
  get_suggestions "xyz"
  = map (fun alt => mkWordSuggestion alt "alternative" 0.4%float)
        ["alternative"; "option"; "choice"; "variant"; "substitute"].
Proof.
  apply (proj2 (fillers_iff_no_key_matches "xyz")).
  intros key synonyms Hin. simpl in Hin.
  repeat (destruct Hin as [[= <- <-]|Hin]; [split; reflexivity|]).
  contradiction.
Defined.

(** ** White space around the input *)

Lemma lstrip_all_space (ws : string) :
  all_space ws = true -> lstrip ws = EmptyString.
Proof.
  induction ws as [|c ws IH]; simpl; [reflexivity|].
  rewrite andb_true_iff. intros [-> H]. now apply IH.
Qed.

Lemma lstrip_app_space (ws s : string) :
  all_space ws = true -> lstrip (ws ++ s) = lstrip s.
Proof.
  induction ws as [|c ws IH]; simpl; [reflexivity|].
  rewrite andb_true_iff. intros [-> H]. now apply IH.
Qed.

Lemma rstrip_all_space (ws : string) :
  all_space ws = true -> rstrip ws = EmptyString.
Proof.
  induction ws as [|c ws IH]; [reflexivity|].
  cbn [all_space]. rewrite andb_true_iff. intros [Hc H].
  now rewrite rstrip_cons, (IH H), Hc.
Qed.

Lemma rstrip_app_space (s ws : string) :
  all_space ws = true -> rstrip (s ++ ws) = rstrip s.
Proof.
  intros H. induction s as [|c s IH].
  - now apply rstrip_all_space.
  - change (String c s ++ ws)%string with (String c (s ++ ws)).
    now rewrite !rstrip_cons, IH.
Qed.

Lemma strip_app_space (s ws : string) :
  all_space ws = true -> strip (s ++ ws) = strip s.
Proof.
  intros H. unfold strip. induction s as [|c s IH].
  - simpl. now rewrite (lstrip_all_space ws H).
  - change (String c s ++ ws)%string with (String c (s ++ ws)).
    cbn [lstrip]. destruct (is_space c); [exact IH|].
    apply (rstrip_app_space (String c s) ws H).
Qed.

Lemma strip_surrounded (before text after : string) :
  all_space before = true -> all_space after = true ->
  strip (before ++ text ++ after) = strip text.
Proof.
  intros Hb Ha.
  transitivity (strip (text ++ after)); [|now apply strip_app_space].
  unfold strip. now rewrite lstrip_app_space.
Qed.

(** X5: white space before and after the input, of any length and of
    any of the white-space characters, never changes the answer. *)
Theorem surrounding_space_ignored (before text after : string) :
  all_space before = true ->
  all_space after = true ->
  get_suggestions (before ++ text ++ after) = get_suggestions text.
Proof.
  intros Hb Ha. unfold get_suggestions, get_suggestions_in.
  now rewrite (strip_surrounded before text after Hb Ha).
Qed.

Lemma surrounding_space_ignored_witness :
  all_space (String (ascii_of_nat 9) " ") = true
  /\ all_space (String (ascii_of_nat 10) EmptyString) = true
  /\ get_suggestions (String (ascii_of_nat 9) " "
                      ++ "Happy" ++ String (ascii_of_nat 10) EmptyString)
     = get_suggestions "Happy".
Proof.
  split; [reflexivity|]. split; [reflexivity|].
  apply surrounding_space_ignored; reflexivity.
Defined.

(** White space inside the input is kept and does change the answer. *)
Example inner_space_matters :
  get_suggestions "ha ppy" <> get_suggestions "happy".
Proof. vm_compute. discriminate. Qed.
(** * The mocked remote reply *)

Lemma no_space_lower (s : string) : no_space (lower s) = no_space s.
Proof.
  induction s as [|c s IH]; simpl; [reflexivity|].
  now rewrite is_space_lower_char, IH.
Qed.

Lemma rstrip_no_space (s : string) : no_space s = true -> rstrip s = s.
Proof.
  induction s as [|c s IH]; [reflexivity|].
  cbn [no_space]. rewrite andb_true_iff, negb_true_iff. intros [Hc H].
  now rewrite rstrip_cons, (IH H), Hc, andb_false_r.
Qed.

Lemma strip_no_space (s : string) : no_space s = true -> strip s = s.
Proof.
  intros H. unfold strip.
  assert (L : lstrip s = s).
  { destruct s as [|c s]; [reflexivity|].
    cbn [no_space] in H. apply andb_true_iff in H. destruct H as [Hc _].
    apply negb_true_iff in Hc. simpl. now rewrite Hc. }
  rewrite L. now apply rstrip_no_space.
Qed.

Lemma response_get_cases (text : string) :
  (lower text = "good"
   /\ response_get mock_responses (lower text)
      = response_get mock_responses "good")
  \/ (lower text = "fast"
      /\ response_get mock_responses (lower text)
         = response_get mock_responses "fast")
  \/ (lower text <> "good" /\ lower text <> "fast"
      /\ response_get mock_responses (lower text) = None).
Proof.
  cbn [response_get mock_responses].
  destruct (String.eqb_spec (lower text) "good") as [E|N].
  - left. now rewrite E.
  - right. destruct (String.eqb_spec (lower text) "fast") as [E|N'].
    + left. now rewrite E.
    + right. repeat split; assumption.
Qed.

(** X6: the mocked remote service answers exactly the texts that are
    "good" or "fast" up to letter case, untrimmed; it answers a text and
    its lowercased form alike; and every text it answers is an exact
    match of the built-in lexicon. *)
Theorem simulate_openai_response_domain :
  (forall text : string,
      simulate_openai_response text <> None
      <-> lower text = "good" \/ lower text = "fast")
  /\ (forall text : string,
         simulate_openai_response (lower text)
         = simulate_openai_response text)
  /\ (forall text : string,
         simulate_openai_response text <> None ->
         branch_of text = ExactMatch).
Proof.
  assert (D : forall text : string,
             simulate_openai_response text <> None
             <-> lower text = "good" \/ lower text = "fast").
  { intros text. unfold simulate_openai_response.
    destruct (response_get_cases text) as [[E ->]|[[E ->]|(N1 & N2 & ->)]].
    - split; [now left | discriminate].
    - split; [now right | discriminate].
    - split; [congruence | intros [E|E]; contradiction]. }
  split; [exact D|]. split.
  - intros text. unfold simulate_openai_response. now rewrite lower_idem.
  - intros text H. apply D in H.
    assert (S : no_space text = true).
    { rewrite <- no_space_lower. now destruct H as [-> | ->]. }
    unfold branch_of. rewrite (strip_no_space text S).
    now destruct H as [-> | ->].
Qed.

Lemma simulate_openai_response_domain_witness :
  simulate_openai_response "GooD" <> None
  /\ branch_of "GooD" = ExactMatch.
Proof.
  assert (H : simulate_openai_response "GooD" <> None)
    by (vm_compute; discriminate).
  split; [exact H|].
  exact (proj2 (proj2 simulate_openai_response_domain) "GooD" H).
Defined.

(** The remote mock does not trim, the lookup does. *)
Example untrimmed_text_not_answered :
  simulate_openai_response " fast" = None
  /\ branch_of " fast" = ExactMatch.
Proof. split; reflexivity. Qed.

Lemma decreasingb_sound (l : list float) :
  decreasingb l = true -> StronglySorted conf_gt l.
Proof.
  induction l as [|x l IH]; simpl; [constructor|].
  rewrite andb_true_iff. intros [Hx Hl].
  constructor; [now apply IH|].
  apply Forall_forall. intros y Hy.
  exact (proj1 (forallb_forall _ _) Hx y Hy).
Qed.

Lemma simulate_openai_response_cases (text : string)
      (r : list WordSuggestion) :
  simulate_openai_response text = Some r ->
  simulate_openai_response "good" = Some r
  \/ simulate_openai_response "fast" = Some r.
Proof.
  unfold simulate_openai_response at 1.
  destruct (response_get_cases text) as [[_ ->]|[[_ ->]|(_ & _ & ->)]];
    [now left | now right | discriminate].
Qed.

Lemma reply_checked (text : string) (r : list WordSuggestion) :
  simulate_openai_response text = Some r -> reply_checkb r = true.
Proof.
  intros H.
  destruct (simulate_openai_response_cases text r H) as [E|E];
    vm_compute in E; injection E as <-; vm_compute; reflexivity.
Qed.

(** X7: every reply of the mocked remote service holds eight suggestions,
    three more than the lookup ever returns, with pairwise distinct words,
    strictly decreasing confidences, each above 0 and at most 1. *)
Theorem simulate_openai_response_well_formed (text : string)
        (r : list WordSuggestion) :
  simulate_openai_response text = Some r ->
  List.length r = 8
  /\ NoDup (map (fun s => lower (word s)) r)
  /\ StronglySorted (fun x y => PrimFloat.ltb y x = true) (map confidence r)
  /\ Forall (fun s => PrimFloat.ltb 0 (confidence s) = true
                      /\ PrimFloat.leb (confidence s) 1 = true) r.
Proof.
  intros H. pose proof (reply_checked text r H) as C.
  unfold reply_checkb in C. rewrite !andb_true_iff in C.
  destruct C as [[[L N] S] U]. repeat split.
  - now apply Nat.eqb_eq.
  - now apply nodupb_sound.
  - now apply decreasingb_sound.
  - apply Forall_forall. intros s Hs.
    pose proof (proj1 (forallb_forall _ _) U s Hs) as R.
    unfold in_unit_range in R. now apply andb_true_iff in R.
Qed.

Lemma simulate_openai_response_well_formed_witness :
  simulate_openai_response "Fast" = simulate_openai_response "fast"
  /\ option_map (@List.length WordSuggestion) (simulate_openai_response "Fast")
     = Some 8.
Proof.
  split; [reflexivity|].
  destruct (simulate_openai_response "Fast") as [r|] eqn:E;
    [|vm_compute in E; discriminate E].
  simpl. f_equal.
  exact (proj1 (simulate_openai_response_well_formed "Fast" r E)).
Defined.

(** * Rendering *)

Lemma get_suggestions_in_kinds (d : Dict) (text : string)
      (s : WordSuggestion) :
  In s (get_suggestions_in d text) ->
  (type s = "synonym" /\ confidence s = 0.8%float)
  \/ (type s = "related" /\ confidence s = 0.6%float)
  \/ (type s = "alternative" /\ confidence s = 0.4%float).
Proof.
  unfold get_suggestions_in. intros H.
  apply add_alternatives_words in H. destruct H as [H|H].
  - destruct (exact_match d (lower (strip text))) as [|s0 l] eqn:E.
    + apply partial_match_words in H. destruct H as (_ & _ & _ & _ & R).
      right. left. exact R.
    + rewrite <- E in H. apply exact_match_words in H.
      destruct H as (_ & _ & _ & R). left. exact R.
  - right. right. apply H.
Qed.

Lemma reply_types (text : string) (r : list WordSuggestion)
      (s : WordSuggestion) :
  simulate_openai_response text = Some r -> In s r ->
  In (type s) ["synonym"; "alternative"; "related"; "creative"]
  /\ In (confidence s)
        [0.95; 0.90; 0.85; 0.80; 0.75; 0.70; 0.65; 0.60]%float.
Proof.
  intros H Hs.
  destruct (simulate_openai_response_cases text r H) as [E|E];
    vm_compute in E; injection E as <-; simpl in Hs;
    repeat (destruct Hs as [<-|Hs]; [vm_compute; tauto|]); contradiction.
Qed.

(** X8: the question mark, the default of the type indicator, is never
    drawn for a suggestion of the lookup, whatever the lexicon, nor for one
    of a mocked remote reply: each of their types has its own pictograph. *)
Theorem type_indicator_known :
  (forall (d : Dict) (text : string) (s : WordSuggestion),
      In s (get_suggestions_in d text) ->
      _get_type_indicator (type s) <> QuestionGlyph)
  /\ (forall (text : string) (r : list WordSuggestion) (s : WordSuggestion),
         simulate_openai_response text = Some r -> In s r ->
         _get_type_indicator (type s) <> QuestionGlyph).
Proof.
  split.
  - intros d text s H.
    destruct (get_suggestions_in_kinds d text s H)
      as [[-> _]|[[-> _]|[-> _]]]; discriminate.
  - intros text r s H Hs.
    destruct (reply_types text r s H Hs) as [T _]. simpl in T.
    destruct T as [<-|[<-|[<-|[<-|[]]]]]; discriminate.
Qed.

Lemma type_indicator_known_witness :
  In (alternative "option") (get_suggestions_in built_in_synonyms "unknownword")
  /\ _get_type_indicator (type (alternative "option")) <> QuestionGlyph.
Proof.
  assert (H : In (alternative "option")
                 (get_suggestions_in built_in_synonyms "unknownword"))
    by (vm_compute; tauto).
  split; [exact H|].
  exact (proj1 type_indicator_known built_in_synonyms "unknownword"
               (alternative "option") H).
Defined.

(** The test is case sensitive: another spelling gets the default. *)
Example type_indicator_default :
  _get_type_indicator "Synonym" = QuestionGlyph
  /\ _get_type_indicator "" = QuestionGlyph.
Proof. split; reflexivity. Qed.

(** X9: the confidence bar of every suggestion of the lookup, whatever
    the lexicon, and of every mocked remote reply is drawn without error
    and has exactly five cells: four full ones for a synonym, three for a
    related word, two for a filler, and three or four for a remote
    suggestion. *)
Theorem confidence_bar_five_cells :
  (forall (d : Dict) (text : string) (s : WordSuggestion),
      In s (get_suggestions_in d text) ->
      let k := if String.eqb (type s) "synonym" then 4
               else if String.eqb (type s) "related" then 3 else 2 in
      _get_confidence_bar (confidence s) = Some (bar_of k)
      /\ List.length (bar_of k) = 5)
  /\ (forall (text : string) (r : list WordSuggestion) (s : WordSuggestion),
         simulate_openai_response text = Some r -> In s r ->
         exists k, (k = 3 \/ k = 4)
                   /\ _get_confidence_bar (confidence s) = Some (bar_of k)
                   /\ List.length (bar_of k) = 5).
Proof.
  split.
  - intros d text s H.
    destruct (get_suggestions_in_kinds d text s H)
      as [[-> ->]|[[-> ->]|[-> ->]]]; vm_compute; split; reflexivity.
  - intros text r s H Hs.
    destruct (reply_types text r s H Hs) as [_ C]. simpl in C.
    repeat (destruct C as [<-|C];
            [first [ exists 4; vm_compute; repeat split; tauto
                   | exists 3; vm_compute; repeat split; tauto ]|]).
    contradiction.
Qed.

Lemma confidence_bar_five_cells_witness :
  In (related "stunning") (get_suggestions_in built_in_synonyms "beauti")
  /\ _get_confidence_bar (confidence (related "stunning"))
     = Some [FullBlock; FullBlock; FullBlock; LightShade; LightShade].
Proof.
  assert (H : In (related "stunning")
                 (get_suggestions_in built_in_synonyms "beauti"))
    by (vm_compute; tauto).
  split; [exact H|].
  exact (proj1 (proj1 confidence_bar_five_cells built_in_synonyms "beauti"
                      (related "stunning") H)).
Defined.

(** Outside the range from 0 to 1 the bar is not five cells long, and a
    confidence that is not a number cannot be drawn. *)
Example confidence_bar_out_of_range :
  option_map (@List.length Cell) (_get_confidence_bar 1.5%float) = Some 7
  /\ option_map (@List.length Cell) (_get_confidence_bar (-0.3)%float) = Some 6
  /\ _get_confidence_bar nan = None
  /\ _get_confidence_bar infinity = None.
Proof. repeat split; vm_compute; reflexivity. Qed.
(** * Sequences of selections *)

Lemma state_of_bind {A B : Type} (m : M A) (k : A -> M B)
      (app : MockAppDelegate) :
  state_of (bind m k app) = state_of (k (fst (fst (m app))) (state_of (m app))).
Proof.
  unfold bind, state_of. destruct (m app) as [[a app1] log1]. simpl.
  now destruct (k a app1) as [[b app2] log2].
Qed.

Lemma log_of_bind {A B : Type} (m : M A) (k : A -> M B)
      (app : MockAppDelegate) :
  log_of (bind m k app)
  = log_of (m app) ++ log_of (k (fst (fst (m app))) (state_of (m app))).
Proof.
  unfold bind, state_of, log_of. destruct (m app) as [[a app1] log1]. simpl.
  now destruct (k a app1) as [[b app2] log2].
Qed.

Lemma get_suggestions_strip (text : string) :
  get_suggestions (strip text) = get_suggestions text.
Proof.
  unfold get_suggestions, get_suggestions_in. now rewrite strip_idem.
Qed.

(** A selection that is not blank: one lookup on the trimmed text, then
    the window. *)
Lemma text_selection_detected_nonblank (app : MockAppDelegate)
      (text : string) (pos : Z * Z) :
  strip text <> EmptyString ->
  text_selection_detected text pos app
  = (tt,
     mkApp (text_monitor app) (mkWindow true (get_suggestions text) pos),
     [ Print (ProcessingText (strip text));
       CallGetSuggestions (strip text);
       Print (FoundSuggestions (List.length (get_suggestions text)));
       CallShowSuggestions (get_suggestions text) pos;
       Print (WindowContents (get_suggestions text) pos) ]).
Proof.
  intros H. unfold text_selection_detected.
  destruct (is_empty (strip text)) eqn:E;
    [now apply is_empty_true in E|].
  pose proof (get_suggestions_nonempty text) as N.
  unfold bind, call_get_suggestions, emit, ret, bind.
  rewrite (get_suggestions_strip text).
  destruct (get_suggestions text) as [|s l]; [contradiction|].
  reflexivity.
Qed.

Lemma is_blank_strip (text : string) (pos : Z * Z) :
  is_blank (text, pos) = true <-> strip text = EmptyString.
Proof. unfold is_blank. simpl. apply is_empty_true. Qed.

Lemma is_blank_false (text : string) (pos : Z * Z) :
  is_blank (text, pos) = false -> strip text <> EmptyString.
Proof.
  intros B E. apply (proj2 (is_blank_strip text pos)) in E. congruence.
Qed.

Lemma text_selection_detected_state (app : MockAppDelegate)
      (text : string) (pos : Z * Z) :
  state_of (text_selection_detected text pos app)
  = mkApp (text_monitor app)
          (if is_blank (text, pos) then suggestion_window app
           else window_answering (text, pos)).
Proof.
  destruct (is_blank (text, pos)) eqn:B.
  - apply is_blank_strip in B.
    rewrite (text_selection_detected_blank app text pos B).
    now destruct app.
  - pose proof (is_blank_false text pos B) as N.
    now rewrite (text_selection_detected_nonblank app text pos N).
Qed.

Lemma text_selection_detected_lookups (app : MockAppDelegate)
      (text : string) (pos : Z * Z) :
  filter is_lookup (log_of (text_selection_detected text pos app))
  = if is_blank (text, pos) then [] else [CallGetSuggestions (strip text)].
Proof.
  destruct (is_blank (text, pos)) eqn:B.
  - apply is_blank_strip in B.
    now rewrite (text_selection_detected_blank app text pos B).
  - pose proof (is_blank_false text pos B) as N.
    now rewrite (text_selection_detected_nonblank app text pos N).
Qed.

Lemma simulate_text_selection_monitoring (app : MockAppDelegate)
      (text : string) (pos : Z * Z) :
  is_monitoring (text_monitor app) = true ->
  state_of (simulate_text_selection text pos app)
  = state_of (text_selection_detected text pos app)
  /\ filter is_lookup (log_of (simulate_text_selection text pos app))
     = filter is_lookup (log_of (text_selection_detected text pos app)).
Proof.
  intros Hm. unfold simulate_text_selection, bind, get_app, emit.
  rewrite Hm. cbn [negb].
  destruct (text_selection_detected text pos app) as [[u app1] log1].
  split; reflexivity.
Qed.

Lemma simulate_text_selection_idle (app : MockAppDelegate)
      (text : string) (pos : Z * Z) :
  is_monitoring (text_monitor app) = false ->
  simulate_text_selection text pos app = (tt, app, [Print NotMonitoring]).
Proof.
  intros Hm. unfold simulate_text_selection, bind, get_app.
  now rewrite Hm.
Qed.

(** X10: while the monitor is off, before [start_application] or after
    [stop_application], selections have no effect at all: each one only
    prints the warning; no lookup is made, the window is not called and
    the application stays as it was. *)
Theorem selections_ignored_when_not_monitoring (app : MockAppDelegate)
        (l : list Selection) :
  is_monitoring (text_monitor app) = false ->
  simulate_selections l app
  = (tt, app, repeat (Print NotMonitoring) (List.length l)).
Proof.
  intros Hm. induction l as [|[text pos] l IH]; [reflexivity|].
  cbn [simulate_selections]. unfold bind.
  rewrite (simulate_text_selection_idle app text pos Hm), IH. reflexivity.
Qed.

Lemma selections_ignored_when_not_monitoring_witness :
  is_monitoring (text_monitor (state_of (stop_application app_showing_good)))
  = false
  /\ state_of (simulate_selections [("good", (1, 2)%Z); ("bad", (3, 4)%Z)]
                 (state_of (stop_application app_showing_good)))
     = state_of (stop_application app_showing_good).
Proof.
  split; [reflexivity|].
  now rewrite (selections_ignored_when_not_monitoring
                 (state_of (stop_application app_showing_good))
                 [("good", (1, 2)%Z); ("bad", (3, 4)%Z)] eq_refl).
Defined.

Lemma simulate_selections_monitoring (l : list Selection) :
  forall app : MockAppDelegate,
    is_monitoring (text_monitor app) = true ->
    state_of (simulate_selections l app)
    = mkApp (text_monitor app) (window_after l (suggestion_window app))
    /\ filter is_lookup (log_of (simulate_selections l app))
       = map (fun sel => CallGetSuggestions (strip (fst sel)))
             (filter (fun sel => negb (is_blank sel)) l).
Proof.
  induction l as [|[text pos] l IH]; intros app Hm.
  - split; [now destruct app | reflexivity].
  - cbn [simulate_selections].
    rewrite state_of_bind, log_of_bind, filter_app.
    destruct (simulate_text_selection_monitoring app text pos Hm) as [S L].
    rewrite L, text_selection_detected_lookups.
    rewrite S, text_selection_detected_state.
    set (app1 := mkApp (text_monitor app)
                       (if is_blank (text, pos) then suggestion_window app
                        else window_answering (text, pos))).
    destruct (IH app1 Hm) as [S1 L1]. rewrite S1, L1.
    cbn [window_after fold_left filter app1 suggestion_window text_monitor].
    destruct (is_blank (text, pos)); split; reflexivity.
Qed.

Lemma find_app_first {A : Type} (f : A -> bool) (l1 l2 : list A) :
  find f (l1 ++ l2)
  = match find f l1 with Some x => Some x | None => find f l2 end.
Proof.
  induction l1 as [|a l1 IH]; simpl; [reflexivity|].
  now destruct (f a).
Qed.

Lemma window_after_last (l : list Selection) :
  forall w : MockSuggestionWindow,
    window_after l w
    = match find (fun sel => negb (is_blank sel)) (rev l) with
      | Some (text, pos) => mkWindow true (get_suggestions text) pos
      | None => w
      end.
Proof.
  induction l as [|[text pos] l IH]; intros w; [reflexivity|].
  cbn [rev]. rewrite find_app_first.
  change (window_after ((text, pos) :: l) w)
    with (window_after l (if is_blank (text, pos) then w
                          else window_answering (text, pos))).
  rewrite IH.
  destruct (find (fun sel => negb (is_blank sel)) (rev l)) as [[t p]|];
    [reflexivity|].
  cbn [find]. now destruct (is_blank (text, pos)).
Qed.

(** X11: while the monitor is on, after any list of selections the window
    shows the answer to the last selection that is not blank, at that
    selection's position, and blank selections in between change nothing;
    when all are blank the window is as before.  The monitor stays on. *)
Theorem last_selection_wins (app : MockAppDelegate) (l : list Selection) :
  is_monitoring (text_monitor app) = true ->
  suggestion_window (state_of (simulate_selections l app))
  = match find (fun sel => negb (is_blank sel)) (rev l) with
    | Some (text, pos) => mkWindow true (get_suggestions text) pos
    | None => suggestion_window app
    end
  /\ text_monitor (state_of (simulate_selections l app)) = text_monitor app.
Proof.
  intros Hm. destruct (simulate_selections_monitoring l app Hm) as [-> _].
  split; [|reflexivity]. cbn [suggestion_window].
  apply window_after_last.
Qed.

Lemma last_selection_wins_witness :
  is_monitoring (text_monitor app_showing_good) = true
  /\ suggestion_window
       (state_of (simulate_selections
                    [("fast", (1, 2)%Z); ("Sad", (3, 4)%Z); ("  ", (5, 6)%Z)]
                    app_showing_good))
     = mkWindow true (get_suggestions "Sad") (3, 4)%Z.
Proof.
  split; [reflexivity|].
  exact (proj1 (last_selection_wins app_showing_good
                  [("fast", (1, 2)%Z); ("Sad", (3, 4)%Z); ("  ", (5, 6)%Z)]
                  eq_refl)).
Defined.

(** X12: while the monitor is on, a list of selections makes exactly one
    lookup per selection that is not blank, in order, each on the trimmed
    text with its letter case kept; blank selections make none. *)
Theorem one_lookup_per_selection (app : MockAppDelegate)
        (l : list Selection) :
  is_monitoring (text_monitor app) = true ->
  filter is_lookup (log_of (simulate_selections l app))
  = map (fun sel => CallGetSuggestions (strip (fst sel)))
        (filter (fun sel => negb (is_empty (strip (fst sel)))) l).
Proof.
  intros Hm. exact (proj2 (simulate_selections_monitoring l app Hm)).
Qed.

Lemma one_lookup_per_selection_witness :
  is_monitoring (text_monitor app_showing_good) = true
  /\ filter is_lookup
       (log_of (simulate_selections
                  [(" HAPPY ", (1, 2)%Z); ("   ", (3, 4)%Z); ("good!", (5, 6)%Z)]
                  app_showing_good))
     = [CallGetSuggestions "HAPPY"; CallGetSuggestions "good!"].
Proof.
  split; [reflexivity|].
  exact (one_lookup_per_selection app_showing_good
           [(" HAPPY ", (1, 2)%Z); ("   ", (3, 4)%Z); ("good!", (5, 6)%Z)]
           eq_refl).
Defined.

(** X13: the handler never reports that no suggestions were found and
    never has the window print that there is nothing to display: both
    branches are unreachable from a selection, because the lookup does
    not return an empty list; the count it reports is 3 or 5. *)
Theorem no_suggestions_branch_unreachable (app : MockAppDelegate)
        (text : string) (pos : Z * Z) :
  ~ In (Print NoSuggestionsFound) (log_of (text_selection_detected text pos app))
  /\ ~ In (Print NoSuggestionsToDisplay)
          (log_of (text_selection_detected text pos app))
  /\ (forall n : nat,
         In (Print (FoundSuggestions n))
            (log_of (text_selection_detected text pos app)) ->
         n = 3 \/ n = 5).
Proof.
  destruct (is_blank (text, pos)) eqn:B.
  - apply is_blank_strip in B.
    rewrite (text_selection_detected_blank app text pos B). simpl.
    repeat split; try (intros [H|[]]; discriminate H).
    intros n [H|[]]. discriminate H.
  - pose proof (is_blank_false text pos B) as N.
    rewrite (text_selection_detected_nonblank app text pos N).
    cbn [log_of snd In]. repeat split.
    + intros H. repeat (destruct H as [H|H]; [discriminate H|]). exact H.
    + intros H. repeat (destruct H as [H|H]; [discriminate H|]). exact H.
    + intros n H.
      destruct H as [H|[H|[H|[H|[H|[]]]]]]; try discriminate H.
      injection H as <-.
      pose proof (branch_cases text) as C.
      destruct (branch_of text).
      * destruct C as (k & v & Hin & ->).
        rewrite length_map, (built_in_entry_length _ _ Hin). now right.
      * destruct C as (k & v & Hin & ->).
        pose proof (built_in_entry_length _ _ Hin) as L.
        five_elements v L. now left.
      * rewrite C. now right.
Qed.

Lemma no_suggestions_branch_unreachable_witness :
  In (Print (FoundSuggestions 3))
     (log_of (text_selection_detected "beauti" (350, 700)%Z app_showing_good))
  /\ (3 = 3 \/ 3 = 5).
Proof.
  assert (H : In (Print (FoundSuggestions 3))
                 (log_of (text_selection_detected "beauti" (350, 700)%Z
                            app_showing_good)))
    by (vm_compute; tauto).
  split; [exact H|].
  exact (proj2 (proj2 (no_suggestions_branch_unreachable
                         app_showing_good "beauti" (350, 700)%Z)) 3 H).
Defined.
(** * The window under any sequence of calls *)





(** * verify_project.py *)

Section ProjectVerification.
Import VerifyProject.

Variable fs : FileSystem.

Lemma check_files_filter (files missing present : list string)
      (out : list Line) :
  check_files fs files (missing, present, out)
  = (missing ++ filter (fun f => negb (path_exists fs f)) files,
     present ++ filter (path_exists fs) files,
     out ++ map (fun file => if path_exists fs file then Found file
                             else Missing file) files).
Proof.
  revert missing present out.
  induction files as [|f files IH]; intros missing present out.
  - simpl. now rewrite !app_nil_r.
  - unfold check_files in *. cbn [fold_left filter map].
    destruct (path_exists fs f); cbn [negb]; rewrite IH, <- !app_assoc;
      reflexivity.
Qed.

Lemma filter_negb_nil {A : Type} (f : A -> bool) (l : list A) :
  filter (fun x => negb (f x)) l = [] <-> forallb f l = true.
Proof.
  induction l as [|a l IH]; simpl; [tauto|].
  destruct (f a); simpl; [exact IH|]. split; discriminate.
Qed.

Lemma filter_partition_length {A : Type} (f : A -> bool) (l : list A) :
  List.length (filter f l) + List.length (filter (fun x => negb (f x)) l)
  = List.length l.
Proof.
  induction l as [|a l IH]; simpl; [reflexivity|].
  destruct (f a); simpl; lia.
Qed.

Lemma missing_cases :
  (forallb (path_exists fs) required_files = true
   /\ filter (fun f => negb (path_exists fs f)) required_files = [])
  \/ (forallb (path_exists fs) required_files = false
      /\ exists m ms,
           filter (fun f => negb (path_exists fs f)) required_files = m :: ms).
Proof.
  pose proof (filter_negb_nil (path_exists fs) required_files) as N.
  destruct (forallb (path_exists fs) required_files).
  - left. split; [reflexivity | now apply N].
  - right. split; [reflexivity|].
    destruct (filter (fun f => negb (path_exists fs f)) required_files)
      as [|m ms]; [now specialize (proj1 N eq_refl) | now exists m, ms].
Qed.

(** X15: [verify_project_structure] returns true exactly when all seven
    required files exist.  It reports each required file once, in the
    declared order, as found or missing; the two counts it prints add up
    to seven; and the names it lists as missing are the required files
    that do not exist, in the declared order. *)
Theorem verify_project_structure_report :
  fst (verify_project_structure fs) = forallb (path_exists fs) required_files
  /\ snd (verify_project_structure fs)
     = map (fun file => if path_exists fs file then Found file
                        else Missing file) required_files
       ++ [ SummaryHeading;
            PresentCount
              (List.length (filter (path_exists fs) required_files)) 7;
            MissingCount
              (List.length (filter (fun f => negb (path_exists fs f))
                                   required_files)) ]
       ++ (if forallb (path_exists fs) required_files then [AllPresent]
           else [MissingNames (filter (fun f => negb (path_exists fs f))
                                      required_files)])
  /\ List.length (filter (path_exists fs) required_files)
     + List.length (filter (fun f => negb (path_exists fs f)) required_files)
     = 7.
Proof.
  unfold verify_project_structure.
  rewrite (check_files_filter required_files [] [] []). cbn [app].
  change (List.length required_files) with 7.
  split; [|split].
  - destruct missing_cases as [[-> ->]|[-> (m & ms & ->)]]; reflexivity.
  - destruct missing_cases as [[-> ->]|[-> (m & ms & ->)]]; cbn [snd];
      now rewrite <- app_assoc.
  - apply (filter_partition_length (path_exists fs) required_files).
Qed.

Lemma verify_project_structure_ok :
  fst (verify_project_structure fs) = forallb (path_exists fs) required_files.
Proof.
  unfold verify_project_structure.
  rewrite (check_files_filter required_files [] [] []). cbn [app].
  destruct missing_cases as [[-> ->]|[-> (m & ms & ->)]]; reflexivity.
Qed.

Lemma main_exit_status :
  fst (main fs)
  = if forallb (path_exists fs) required_files
       && existsb (fun f => endswith f ".swift") (listdir fs)
    then 0%Z else 1%Z.
Proof.
  unfold main. rewrite <- verify_project_structure_ok.
  destruct (verify_project_structure fs) as [ok out1].
  unfold count_swift_files. cbn [fst].
  assert (E : (0 <? List.length (filter (fun f => endswith f ".swift")
                                        (listdir fs)))%nat
              = existsb (fun f => endswith f ".swift") (listdir fs)).
  { induction (listdir fs) as [|f l IH]; simpl; [reflexivity|].
    destruct (endswith f ".swift"); [reflexivity | exact IH]. }
  now rewrite E.
Qed.

(** X16: the script exits with status 0 exactly when all seven required
    files exist and the directory lists a name that ends in ".swift", and
    with status 1 otherwise.  When the listing agrees with the existence
    test on the required files, the second condition follows from the
    first: the exit status then tells only whether all required files
    exist. *)
Theorem main_exit_code :
  (fst (main fs) = 0%Z
   <-> (forall file, In file required_files -> path_exists fs file = true)
       /\ exists file, In file (listdir fs) /\ endswith file ".swift" = true)
  /\ (fst (main fs) = 0%Z \/ fst (main fs) = 1%Z)
  /\ (listing_agrees fs ->
      (fst (main fs) = 0%Z
       <-> forall file, In file required_files -> path_exists fs file = true)).
Proof.
  rewrite main_exit_status.
  assert (A : forallb (path_exists fs) required_files = true
              <-> forall file, In file required_files ->
                               path_exists fs file = true)
    by apply forallb_forall.
  assert (B : existsb (fun f => endswith f ".swift") (listdir fs) = true
              <-> exists file, In file (listdir fs)
                               /\ endswith file ".swift" = true)
    by apply existsb_exists.
  split; [|split].
  - rewrite <- A, <- B.
    destruct (forallb (path_exists fs) required_files),
             (existsb (fun f => endswith f ".swift") (listdir fs));
      simpl; intuition congruence.
  - destruct (forallb (path_exists fs) required_files
              && existsb (fun f => endswith f ".swift") (listdir fs));
      [now left | now right].
  - intros L. rewrite <- A.
    destruct (forallb (path_exists fs) required_files) eqn:F; simpl;
      [|intuition congruence].
    assert (X : existsb (fun f => endswith f ".swift") (listdir fs) = true).
    { apply B. exists "main.swift". split; [|reflexivity].
      apply L; [now left | reflexivity |].
      apply (proj1 A eq_refl). now left. }
    rewrite X. tauto.
Qed.

End ProjectVerification.

Lemma main_exit_code_witness :
  VerifyProject.listing_agrees
    (VerifyProject.mkFileSystem
       (fun f => existsb (String.eqb f) VerifyProject.required_files)
       ["AppDelegate.swift"; "Info.plist"; "main.swift"; "SuggestionWindow.swift";
        "TextMonitor.swift"; "WordSuggest.xcodeproj"; "WordSuggestionService.swift"])
  /\ fst (VerifyProject.main
            (VerifyProject.mkFileSystem
               (fun f => existsb (String.eqb f) VerifyProject.required_files)
               ["AppDelegate.swift"; "Info.plist"; "main.swift";
                "SuggestionWindow.swift"; "TextMonitor.swift";
                "WordSuggest.xcodeproj"; "WordSuggestionService.swift"]))
     = 0%Z.
Proof.
  assert (L : VerifyProject.listing_agrees
                (VerifyProject.mkFileSystem
                   (fun f => existsb (String.eqb f) VerifyProject.required_files)
                   ["AppDelegate.swift"; "Info.plist"; "main.swift";
                    "SuggestionWindow.swift"; "TextMonitor.swift";
                    "WordSuggest.xcodeproj"; "WordSuggestionService.swift"])).
  { intros file Hin Hs He. simpl in Hin.
    repeat (destruct Hin as [<-|Hin];
            [first [ discriminate Hs | simpl; tauto ]|]).
    contradiction. }
  split; [exact L|].
  apply (proj2 (proj2 (main_exit_code _)) L).
  intros file Hin. simpl in Hin.
  repeat (destruct Hin as [<-|Hin]; [reflexivity|]). contradiction.
Defined.

(** Without a file that ends in ".swift" in the listing the script
    fails even when every required path exists. *)
Example main_needs_swift_listing :
  fst (VerifyProject.main (VerifyProject.mkFileSystem (fun _ => true) []))
  = 1%Z.
Proof. reflexivity. Qed.
(** * test_runner.py: the result table *)

Section ResultTable.
Import TestRunner.

Lemma update_lookup (d d' : Results) (k : string)
      (f : CategoryResult -> CategoryResult) :
  update d k f = Some d' ->
  forall k',
    lookup d' k'
    = if String.eqb k' k then option_map f (lookup d k') else lookup d k'.
Proof.
  revert d'. induction d as [|[k0 v0] d IH]; intros d' H k'; [discriminate|].
  cbn [update] in H. destruct (String.eqb_spec k k0) as [->|N].
  - injection H as <-. cbn [lookup].
    destruct (String.eqb_spec k' k0) as [->|N']; reflexivity.
  - destruct (update d k f) as [d1|] eqn:U; [|discriminate].
    injection H as <-. cbn [lookup].
    destruct (String.eqb_spec k' k0) as [->|N'].
    + destruct (String.eqb_spec k0 k) as [E|_]; [congruence|reflexivity].
    + now apply IH.
Qed.

Lemma update_none (d : Results) (k : string)
      (f : CategoryResult -> CategoryResult) :
  update d k f = None <-> lookup d k = None.
Proof.
  induction d as [|[k0 v0] d IH]; cbn [update lookup]; [tauto|].
  destruct (String.eqb k k0); [split; discriminate|].
  destruct (update d k f); simpl; [|tauto].
  split; [discriminate|]. intros H. apply IH in H. discriminate.
Qed.

(** One call: the entry of its category grows by one detail and one
    count, every other entry stays. *)
Lemma run_call_lookup (c : Call) (v v' : Validator) :
  run_call c v = Some v' ->
  forall k r,
    lookup (test_results v) k = Some r ->
    exists r',
      lookup (test_results v') k = Some r'
      /\ passed r' = passed r + List.length (filter is_pass (calls_details k [c]))
      /\ failed r' = failed r + List.length (filter is_fail (calls_details k [c]))
      /\ details r' = details r ++ calls_details k [c].
Proof.
  intros H k r L. unfold calls_details. cbn [filter].
  destruct c as [category message|category message];
    cbn [run_call category_of] in *; unfold _pass, _fail in H;
    match type of H with
    | context [update ?d ?c ?f] => destruct (update d c f) as [d1|] eqn:U
    end; try discriminate; injection H as <-; cbn [test_results];
    rewrite (update_lookup _ _ _ _ U k), L;
    destruct (String.eqb k category); cbn [option_map map filter];
    eexists; (split; [reflexivity|]); cbn;
    rewrite ?Nat.add_0_r, ?app_nil_r; repeat split; reflexivity.
Qed.

Lemma run_calls_lookup (cs : list Call) :
  forall v v',
    run_calls cs v = Some v' ->
    forall k r,
      lookup (test_results v) k = Some r ->
      exists r',
        lookup (test_results v') k = Some r'
        /\ passed r' = passed r + List.length (filter is_pass (calls_details k cs))
        /\ failed r' = failed r + List.length (filter is_fail (calls_details k cs))
        /\ details r' = details r ++ calls_details k cs.
Proof.
  induction cs as [|c cs IH]; intros v v' H k r L.
  - injection H as <-. exists r. unfold calls_details. simpl.
    rewrite !Nat.add_0_r, app_nil_r. repeat split; assumption.
  - cbn [run_calls] in H. destruct (run_call c v) as [v1|] eqn:C; [|discriminate].
    destruct (run_call_lookup c v v1 C k r L) as (r1 & L1 & P1 & F1 & D1).
    destruct (IH v1 v' H k r1 L1) as (r' & L' & P' & F' & D').
    exists r'. split; [exact L'|].
    assert (E : calls_details k (c :: cs)
                = calls_details k [c] ++ calls_details k cs).
    { unfold calls_details. cbn [filter].
      destruct (String.eqb k (category_of c)); reflexivity. }
    rewrite E, !filter_app, !length_app, P', F', D', P1, F1, D1, app_assoc.
    repeat split; lia.
Qed.

Lemma new_validator_lookup (k : string) :
  In k categories ->
  lookup (test_results new_validator) k = Some (mkCategoryResult 0 0 []).
Proof.
  intros H. simpl in H.
  repeat (destruct H as [<-|H]; [reflexivity|]). contradiction.
Qed.

Lemma pass_fail_partition (l : list (Verdict * Msg)) :
  List.length (filter is_pass l) + List.length (filter is_fail l)
  = List.length l.
Proof.
  induction l as [|[[] m] l IH]; simpl; [reflexivity| |]; lia.
Qed.

(** X17: after any sequence of [_pass] and [_fail] calls on a fresh
    validator, the entry of each category holds, in call order, exactly
    the details of the calls made under that category, its [passed] and
    [failed] counters are the numbers of PASS and of FAIL details, and the
    two add up to the number of details. *)
Theorem result_table_counts (cs : list Call) (v' : Validator) (k : string) :
  run_calls cs new_validator = Some v' ->
  In k categories ->
  exists r,
    lookup (test_results v') k = Some r
    /\ details r
       = map detail_of (filter (fun c => String.eqb k (category_of c)) cs)
    /\ passed r = List.length (filter is_pass (details r))
    /\ failed r = List.length (filter is_fail (details r))
    /\ passed r + failed r = List.length (details r).
Proof.
  intros H Hk.
  destruct (run_calls_lookup cs _ _ H k _ (new_validator_lookup k Hk))
    as (r & L & P & F & D).
  exists r. cbn in P, F, D. split; [exact L|]. split; [exact D|].
  rewrite P, F, D. repeat split. apply pass_fail_partition.
Qed.

Lemma result_table_counts_witness :
  run_calls [CallPass "logic" (FoundTestFile "a");
             CallFail "security" (MissingTestFile "b");
             CallFail "logic" (MissingTestFile "c")] new_validator <> None
  /\ option_map (fun v => option_map (fun r => (passed r, failed r))
                                     (lookup (test_results v) "logic"))
       (run_calls [CallPass "logic" (FoundTestFile "a");
                   CallFail "security" (MissingTestFile "b");
                   CallFail "logic" (MissingTestFile "c")] new_validator)
     = Some (Some (1, 1)).
Proof.
  split; [vm_compute; discriminate|].
  destruct (run_calls [CallPass "logic" (FoundTestFile "a");
                       CallFail "security" (MissingTestFile "b");
                       CallFail "logic" (MissingTestFile "c")] new_validator)
    as [v'|] eqn:E; [|vm_compute in E; discriminate E].
  destruct (result_table_counts _ v' "logic" E) as (r & L & D & P & F & _).
  - simpl. tauto.
  - cbn [option_map]. rewrite L. cbn [option_map].
    rewrite P, F, D. reflexivity.
Defined.

Lemma run_call_keys (c : Call) (v v' : Validator) (k : string) :
  run_call c v = Some v' ->
  (lookup (test_results v') k = None <-> lookup (test_results v) k = None).
Proof.
  intros H.
  destruct c as [category message|category message];
    cbn [run_call] in H; unfold _pass, _fail in H;
    match type of H with
    | context [update ?d ?c ?f] => destruct (update d c f) as [d1|] eqn:U
    end; try discriminate; injection H as <-; cbn [test_results];
    rewrite (update_lookup _ _ _ _ U k);
    destruct (String.eqb k category);
    destruct (lookup (test_results v) k); simpl; split; congruence.
Qed.

Lemma run_call_none (c : Call) (v : Validator) :
  run_call c v = None <-> lookup (test_results v) (category_of c) = None.
Proof.
  destruct c as [category message|category message];
    cbn [run_call category_of]; unfold _pass, _fail;
    match goal with
    | |- context [update ?d ?c ?f] =>
        pose proof (update_none d c f) as N; destruct (update d c f)
    end; intuition congruence.
Qed.

Lemma run_calls_none (cs : list Call) :
  forall v,
    run_calls cs v = None
    <-> exists c, In c cs /\ lookup (test_results v) (category_of c) = None.
Proof.
  induction cs as [|c cs IH]; intros v; cbn [run_calls].
  - split; [discriminate | intros (c & [] & _)].
  - destruct (run_call c v) as [v1|] eqn:C.
    + rewrite IH. split.
      * intros (c' & Hin & L). exists c'. split; [now right|].
        now apply (run_call_keys c v v1 _ C).
      * intros (c' & [<-|Hin] & L).
        -- apply run_call_none in L. congruence.
        -- exists c'. split; [exact Hin|].
           now apply (run_call_keys c v v1 _ C).
    + split; [|reflexivity]. intros _. exists c. split; [now left|].
      now apply run_call_none.
Qed.

Lemma new_validator_lookup_none (k : string) :
  lookup (test_results new_validator) k = None <-> ~ In k categories.
Proof.
  split.
  - intros L Hin. rewrite (new_validator_lookup k Hin) in L. discriminate.
  - intros N. cbn [new_validator test_results map lookup].
    repeat match goal with
           | |- context [String.eqb k ?c] =>
               destruct (String.eqb_spec k c) as [->|_];
               [exfalso; apply N; simpl; tauto|]
           end.
    reflexivity.
Qed.

(** X18: a sequence of [_pass] and [_fail] calls on a fresh validator
    raises [KeyError] exactly when one of the calls names a category that
    is not one of the six of the table; with known categories it always
    runs to the end. *)
Theorem key_error_iff_unknown_category (cs : list Call) :
  run_calls cs new_validator = None
  <-> exists c, In c cs /\ ~ In (category_of c) categories.
Proof.
  rewrite run_calls_none. split; intros (c & Hin & H); exists c;
    (split; [exact Hin|]); now apply new_validator_lookup_none.
Qed.

Lemma key_error_iff_unknown_category_witness :
  run_calls [CallPass "structure" (FoundTestFile "a");
             CallFail "Structure" (MissingTestFile "b")] new_validator = None.
Proof.
  apply (proj2 (key_error_iff_unknown_category _)).
  exists (CallFail "Structure" (MissingTestFile "b")).
  split; [simpl; tauto|]. simpl. intros H.
  repeat (destruct H as [H|H]; [discriminate H|]). exact H.
Defined.

End ResultTable.
(** * test_runner.py: the structure test and the report *)

Section StructureTest.
Import TestRunner.

Variable fs : VerifyProject.FileSystem.

Lemma check_file_calls (found missing : string -> Msg) (files : list string) :
  forall v : option Validator,
    fold_left (check_file fs found missing) files v
    = match v with
      | Some v =>
          run_calls
            (map (fun file =>
                    if VerifyProject.path_exists fs file
                    then CallPass "structure" (found file)
                    else CallFail "structure" (missing file)) files) v
      | None => None
      end.
Proof.
  induction files as [|f files IH]; intros [v|]; cbn [fold_left map run_calls];
    try reflexivity.
  - rewrite IH. cbn [check_file].
    destruct (VerifyProject.path_exists fs f); reflexivity.
  - rewrite IH. reflexivity.
Qed.

Lemma run_calls_app (cs1 cs2 : list Call) (v : Validator) :
  run_calls (cs1 ++ cs2) v
  = match run_calls cs1 v with
    | Some v1 => run_calls cs2 v1
    | None => None
    end.
Proof.
  revert v. induction cs1 as [|c cs1 IH]; intros v; cbn [app run_calls];
    [reflexivity|].
  destruct (run_call c v); [apply IH | reflexivity].
Qed.

Lemma test_project_structure_calls (v : Validator) :
  test_project_structure fs v
  = run_calls (structure_calls fs) (print_heading v).
Proof.
  unfold test_project_structure, structure_calls.
  now rewrite run_calls_app, !check_file_calls.
Qed.

Lemma structure_calls_known (c : Call) :
  In c (structure_calls fs) -> category_of c = "structure".
Proof.
  unfold structure_calls. intros H. apply in_app_or in H.
  destruct H as [H|H]; apply in_map_iff in H; destruct H as (f & <- & _);
    now destruct (VerifyProject.path_exists fs f).
Qed.

(** Details of the calls made for a list of files. *)
Lemma file_calls_details (found missing : string -> Msg)
      (files : list string) :
  calls_details "structure"
    (map (fun file =>
            if VerifyProject.path_exists fs file
            then CallPass "structure" (found file)
            else CallFail "structure" (missing file)) files)
  = map (fun file =>
           if VerifyProject.path_exists fs file
           then (PASS, found file) else (FAIL, missing file)) files.
Proof.
  unfold calls_details.
  induction files as [|f files IH]; [reflexivity|].
  cbn [map filter].
  destruct (VerifyProject.path_exists fs f); cbn [category_of];
    rewrite String.eqb_refl; cbn [map detail_of]; now rewrite IH.
Qed.

Lemma file_calls_counts (found missing : string -> Msg) (files : list string) :
  let cs := map (fun file =>
                   if VerifyProject.path_exists fs file
                   then CallPass "structure" (found file)
                   else CallFail "structure" (missing file)) files in
  List.length (filter is_pass (calls_details "structure" cs))
  = List.length (filter (VerifyProject.path_exists fs) files)
  /\ List.length (filter is_fail (calls_details "structure" cs))
     = List.length (filter (fun f => negb (VerifyProject.path_exists fs f))
                           files).
Proof.
  cbv zeta. rewrite file_calls_details.
  induction files as [|f files [IHp IHf]]; [split; reflexivity|].
  cbn [map filter].
  destruct (VerifyProject.path_exists fs f);
    cbn [is_pass is_fail fst negb filter List.length];
    rewrite IHp, IHf; split; reflexivity.
Qed.

Lemma calls_details_app (k : string) (cs1 cs2 : list Call) :
  calls_details k (cs1 ++ cs2) = calls_details k cs1 ++ calls_details k cs2.
Proof. unfold calls_details. now rewrite filter_app, map_app. Qed.

Lemma structure_details_counts :
  List.length (filter is_pass (calls_details "structure" (structure_calls fs)))
  = List.length (filter (VerifyProject.path_exists fs) structure_files)
  /\ List.length (filter is_fail
                         (calls_details "structure" (structure_calls fs)))
     = List.length (filter (fun f => negb (VerifyProject.path_exists fs f))
                           structure_files).
Proof.
  unfold structure_calls, structure_files.
  rewrite calls_details_app, !filter_app, !length_app.
  destruct (file_calls_counts FoundRequiredFile MissingRequiredFile
              VerifyProject.required_files) as [-> ->].
  destruct (file_calls_counts FoundTestFile MissingTestFile test_files)
    as [-> ->].
  split; reflexivity.
Qed.

Lemma other_category_untouched (k : string) :
  k <> "structure" -> calls_details k (structure_calls fs) = [].
Proof.
  intros N. unfold calls_details.
  pose proof structure_calls_known as K.
  induction (structure_calls fs) as [|c l IH]; [reflexivity|].
  cbn [filter]. rewrite (K c (or_introl eq_refl)).
  destruct (String.eqb_spec k "structure") as [E|_]; [contradiction|].
  apply IH. intros c' Hin. apply K. now right.
Qed.

Lemma structure_files_partition :
  List.length (filter (VerifyProject.path_exists fs) structure_files)
  + List.length (filter (fun f => negb (VerifyProject.path_exists fs f))
                        structure_files)
  = 9.
Proof. apply (filter_partition_length _ structure_files). Qed.

Lemma run_call_printed (c : Call) (v v' : Validator) :
  run_call c v = Some v' ->
  List.length (printed v') = List.length (printed v) + 1.
Proof.
  destruct c as [category message|category message];
    cbn [run_call]; unfold _pass, _fail;
    match goal with
    | |- context [update ?d ?c ?f] => destruct (update d c f)
    end; try discriminate; intros [= <-]; cbn [printed];
    now rewrite length_app.
Qed.

Lemma run_calls_printed (cs : list Call) :
  forall v v',
    run_calls cs v = Some v' ->
    List.length (printed v') = List.length (printed v) + List.length cs.
Proof.
  induction cs as [|c cs IH]; intros v v' H; cbn [run_calls] in H.
  - injection H as <-. simpl. lia.
  - destruct (run_call c v) as [v1|] eqn:C; [|discriminate].
    rewrite (IH v1 v' H), (run_call_printed c v v1 C). simpl. lia.
Qed.

Lemma test_project_structure_entry :
  exists v' r,
    run_calls (structure_calls fs) (print_heading new_validator) = Some v'
    /\ lookup (test_results v') "structure" = Some r
    /\ passed r
       = List.length (filter (VerifyProject.path_exists fs) structure_files)
    /\ failed r
       = List.length (filter (fun f => negb (VerifyProject.path_exists fs f))
                             structure_files)
    /\ details r = calls_details "structure" (structure_calls fs).
Proof.
  destruct (run_calls (structure_calls fs) (print_heading new_validator))
    as [v'|] eqn:T.
  - assert (Hk : In "structure" categories) by (simpl; tauto).
    destruct (run_calls_lookup _ _ _ T "structure" _
                (new_validator_lookup "structure" Hk)) as (r & L & P & F & D).
    destruct structure_details_counts as [Cp Cf].
    exists v', r. repeat split; try assumption.
    + rewrite P, Cp. reflexivity.
    + rewrite F, Cf. reflexivity.
  - apply run_calls_none in T. destruct T as (c & Hin & L).
    rewrite (structure_calls_known c Hin) in L. discriminate L.
Qed.

(** X19: on every file system the structure test runs without error and
    records exactly nine results under "structure", one for each of the
    seven required files and the two test files: as many passed as of them
    exist and as many failed as are missing.  It prints its heading and
    nine messages, and leaves the other five categories empty. *)
Theorem structure_test_records_nine :
  exists v' r,
    test_project_structure fs new_validator = Some v'
    /\ lookup (test_results v') "structure" = Some r
    /\ passed r
       = List.length (filter (VerifyProject.path_exists fs)
                             (VerifyProject.required_files ++ test_files))
    /\ failed r
       = List.length (filter (fun f => negb (VerifyProject.path_exists fs f))
                             (VerifyProject.required_files ++ test_files))
    /\ passed r + failed r = 9
    /\ List.length (details r) = 9
    /\ List.length (printed v') = 10
    /\ (forall k,
           In k categories -> k <> "structure" ->
           lookup (test_results v') k = Some (mkCategoryResult 0 0 [])).
Proof.
  destruct test_project_structure_entry as (v' & r & T & L & P & F & D).
  exists v', r. rewrite test_project_structure_calls.
  split; [exact T|]. split; [exact L|].
  split; [exact P|]. split; [exact F|].
  pose proof structure_files_partition as Nine.
  split; [rewrite P, F; exact Nine|].
  split.
  { rewrite D, <- (pass_fail_partition (calls_details _ _)).
    destruct structure_details_counts as [-> ->]. exact Nine. }
  split.
  { rewrite (run_calls_printed _ _ _ T). unfold structure_calls.
    now rewrite length_app, !length_map. }
  intros k Hk N.
  destruct (run_calls_lookup _ _ _ T k _ (new_validator_lookup k Hk))
    as (r1 & L1 & P1 & F1 & D1).
  rewrite (other_category_untouched k N) in P1, F1, D1.
  rewrite L1. destruct r1 as [p f d]. cbn in P1, F1, D1. now subst.
Qed.

Lemma category_status_counts (r : CategoryResult) :
  category_status r = status_of_counts (passed r) (failed r).
Proof. reflexivity. Qed.

Lemma status_nine (missing : nat) :
  missing <= 9 ->
  status_of_counts (9 - missing) missing
  = Some (if (missing <=? 1)%nat then StatusPass
          else if (missing <=? 3)%nat then StatusWarn
          else StatusFail).
Proof.
  intros H.
  do 10 (destruct missing as [|missing]; [vm_compute; reflexivity|]). lia.
Qed.

(** X20: the status the report gives the structure category depends only
    on how many of the nine files are missing: PASS with at most one
    missing, WARN with two or three, FAIL with four or more. *)
Theorem structure_status_by_missing (v' : Validator) (r : CategoryResult) :
  test_project_structure fs new_validator = Some v' ->
  lookup (test_results v') "structure" = Some r ->
  category_status r
  = Some (let missing :=
            List.length (filter (fun f => negb (VerifyProject.path_exists fs f))
                                (VerifyProject.required_files ++ test_files)) in
          if (missing <=? 1)%nat then StatusPass
          else if (missing <=? 3)%nat then StatusWarn
          else StatusFail).
Proof.
  intros T L.
  destruct test_project_structure_entry as (v1 & r1 & T1 & L1 & P1 & F1 & _).
  rewrite test_project_structure_calls, T1 in T. injection T as <-.
  rewrite L1 in L. injection L as <-.
  pose proof structure_files_partition as Nine.
  rewrite category_status_counts, P1, F1.
  change (VerifyProject.required_files ++ test_files) with structure_files.
  set (missing := List.length (filter (fun f => negb (VerifyProject.path_exists fs f))
                                      structure_files)) in *.
  replace (List.length (filter (VerifyProject.path_exists fs) structure_files))
    with (9 - missing) by lia.
  apply status_nine. lia.
Qed.

End StructureTest.

Lemma structure_status_by_missing_witness :
  option_map (fun v => option_map TestRunner.category_status
                         (TestRunner.lookup (TestRunner.test_results v)
                                            "structure"))
    (TestRunner.test_project_structure
       (VerifyProject.mkFileSystem
          (fun f => negb (String.eqb f "Info.plist")
                    && negb (String.eqb f "UIComponentTests.swift")) [])
       TestRunner.new_validator)
  = Some (Some (Some TestRunner.StatusWarn)).
Proof.
  destruct (TestRunner.test_project_structure
              (VerifyProject.mkFileSystem
                 (fun f => negb (String.eqb f "Info.plist")
                           && negb (String.eqb f "UIComponentTests.swift")) [])
              TestRunner.new_validator) as [v|] eqn:T;
    [|vm_compute in T; discriminate T].
  cbn [option_map].
  destruct (TestRunner.lookup (TestRunner.test_results v) "structure")
    as [r|] eqn:L;
    [|vm_compute in T; injection T as <-; vm_compute in L; discriminate L].
  cbn [option_map].
  rewrite (structure_status_by_missing _ v r T L). reflexivity.
Defined.

(** * test_runner.py: the thresholds of the report *)

Lemma verdicts_agree_200 : verdicts_agree_upto 200 = true.
Proof. vm_compute. reflexivity. Qed.

Lemma status_beq_eq (a b : option TestRunner.Status) :
  status_beq a b = true -> a = b.
Proof. destruct a as [[]|], b as [[]|]; simpl; congruence. Qed.

Lemma grade_beq_eq (a b : TestRunner.Grade) : grade_beq a b = true -> a = b.
Proof. destruct a, b; simpl; congruence. Qed.

Lemma verdicts_agree_upto_sound (bound p f : nat) :
  verdicts_agree_upto bound = true ->
  p + f <= bound ->
  TestRunner.status_of_counts p f = TestRunner.exact_status p f
  /\ TestRunner.grade_of_counts p f = TestRunner.exact_grade p f.
Proof.
  unfold verdicts_agree_upto. intros A H.
  rewrite forallb_forall in A.
  assert (Ht : In (p + f) (seq 0 (bound + 1))) by (apply in_seq; lia).
  specialize (A _ Ht). rewrite forallb_forall in A.
  assert (Hp : In p (seq 0 (p + f + 1))) by (apply in_seq; lia).
  specialize (A _ Hp). replace (p + f - p) with f in A by lia.
  apply andb_true_iff in A. destruct A as [A1 A2].
  split; [now apply status_beq_eq | now apply grade_beq_eq].
Qed.

Lemma verdicts_agree (p f : nat) :
  p + f <= 200 ->
  TestRunner.status_of_counts p f = TestRunner.exact_status p f
  /\ TestRunner.grade_of_counts p f = TestRunner.exact_grade p f.
Proof. exact (verdicts_agree_upto_sound 200 p f verdicts_agree_200). Qed.

(** X21: with at most 200 recorded results the floating-point
    percentages of the report decide exactly as integer arithmetic does: a
    category is PASS when at least 80 percent of its results passed, WARN
    when at least 60 percent did, FAIL otherwise, and is not reported when
    it has no result; rounding never moves a count across a threshold,
    not even at exactly 80 or 60 percent. *)
Theorem category_status_exact (r : TestRunner.CategoryResult) :
  TestRunner.passed r + TestRunner.failed r <= 200 ->
  TestRunner.category_status r
  = let passed := TestRunner.passed r in
    let total := TestRunner.passed r + TestRunner.failed r in
    if (total =? 0)%nat then None
    else Some (if (4 * total <=? 5 * passed)%nat then TestRunner.StatusPass
               else if (3 * total <=? 5 * passed)%nat then TestRunner.StatusWarn
               else TestRunner.StatusFail).
Proof.
  intros H.
  change (TestRunner.category_status r)
    with (TestRunner.status_of_counts (TestRunner.passed r) (TestRunner.failed r)).
  rewrite (proj1 (verdicts_agree _ _ H)). unfold TestRunner.exact_status.
  cbv zeta.
  now destruct (TestRunner.passed r + TestRunner.failed r) as [|n].
Qed.

Lemma category_status_exact_witness :
  TestRunner.category_status (TestRunner.mkCategoryResult 4 1 [])
  = Some TestRunner.StatusPass
  /\ TestRunner.category_status (TestRunner.mkCategoryResult 3 2 [])
     = Some TestRunner.StatusWarn.
Proof.
  split.
  - rewrite (category_status_exact (TestRunner.mkCategoryResult 4 1 []));
      [reflexivity | simpl; lia].
  - rewrite (category_status_exact (TestRunner.mkCategoryResult 3 2 []));
      [reflexivity | simpl; lia].
Defined.

(** X22: with at most 200 recorded results in all, the overall verdict
    of the report is the one integer arithmetic gives: excellent from 90
    percent passed, good from 80, fair from 70, poor below, and poor when
    nothing was recorded. *)
Theorem overall_grade_exact (results : TestRunner.Results) :
  let passed := list_sum (map (fun e => TestRunner.passed (snd e)) results) in
  let failed := list_sum (map (fun e => TestRunner.failed (snd e)) results) in
  let total := passed + failed in
  total <= 200 ->
  TestRunner.overall_grade results
  = if (total =? 0)%nat then TestRunner.Poor
    else if (9 * total <=? 10 * passed)%nat then TestRunner.Excellent
    else if (8 * total <=? 10 * passed)%nat then TestRunner.Good
    else if (7 * total <=? 10 * passed)%nat then TestRunner.Fair
    else TestRunner.Poor.
Proof.
  intros passed failed total H.
  change (TestRunner.overall_grade results)
    with (TestRunner.grade_of_counts passed failed).
  rewrite (proj2 (verdicts_agree _ _ H)). unfold TestRunner.exact_grade.
  fold total. destruct total as [|n] eqn:E; [reflexivity|].
  cbn [Nat.eqb Nat.ltb Nat.leb andb]. reflexivity.
Qed.

Lemma overall_grade_exact_witness :
  TestRunner.overall_grade
    [("structure", TestRunner.mkCategoryResult 8 1 []);
     ("logic", TestRunner.mkCategoryResult 10 1 [])]
  = TestRunner.Excellent.
Proof.
  rewrite (overall_grade_exact
             [("structure", TestRunner.mkCategoryResult 8 1 []);
              ("logic", TestRunner.mkCategoryResult 10 1 [])]);
    [reflexivity | simpl; lia].
Defined.
